(** * Ryokushen Financial: development utilities

    A shallow embedding of the three scripts of the repository,
    [server.py] (static file server with CORS headers and port-conflict
    resolution), [manage_server.py] (start/stop/restart/status front-end) and
    [create_favicon.py] (icon generator with a placeholder fallback), and the
    properties their specification states about them.

    Python values are embedded as follows: [int] as [Z], [str] as [string]
    (ASCII text), [bytes] as [list byte], [None]-or-value as [option], and an
    operation that may raise as a [result]. The operating system (process
    table, sockets, terminal, file system) is an explicit state threaded
    through the program together with a log of the actions performed. *)

From Stdlib Require Import ZArith NArith List String Ascii Bool Lia.
From Stdlib Require Import Decimal DecimalString DecimalPos DecimalN DecimalZ.
Import ListNotations.

Open Scope string_scope.
Open Scope Z_scope.

(** ** Python primitives used by the scripts *)

Module Py.

(** Exceptions that the scripts can meet. *)
Inductive exn : Type :=
| OSError
| FileNotFoundError
| ProcessLookupError
| PermissionError
| ValueError
| OverflowError
| AttributeError
| EOFError
| ImportError
| ModuleNotFoundError
| KeyboardInterrupt
| SystemExit (code : Z).

(** [except Exception] catches everything but the [BaseException]-only
    classes. *)
Definition is_Exception (e : exn) : bool :=
  match e with
  | KeyboardInterrupt | SystemExit _ => false
  | _ => true
  end.

(** [except OSError] catches the class and its subclasses. *)
Definition is_OSError (e : exn) : bool :=
  match e with
  | OSError | FileNotFoundError | ProcessLookupError | PermissionError => true
  | _ => false
  end.

(** [except ImportError] also catches its subclass. *)
Definition is_ImportError (e : exn) : bool :=
  match e with
  | ImportError | ModuleNotFoundError => true
  | _ => false
  end.

Inductive result (A : Type) : Type :=
| Ok (a : A)
| Raise (e : exn).
Arguments Ok {A} a.
Arguments Raise {A} e.

Definition nl : string := String (ascii_of_nat 10) EmptyString.

(** [str.isspace] on an ASCII character: tab, line feed, vertical tab, form
    feed, carriage return, the four separators 0x1c..0x1f and the space. *)
Definition isspace (c : ascii) : bool :=
  let n := nat_of_ascii c in
  ((9 <=? n) && (n <=? 13) || (28 <=? n) && (n <=? 32))%nat.

Fixpoint lstrip (s : string) : string :=
  match s with
  | EmptyString => EmptyString
  | String c s' => if isspace c then lstrip s' else s
  end.

(** Removal of trailing white space: a character is kept when it is not
    white space or when something is kept after it. *)
Fixpoint rstrip (s : string) : string :=
  match s with
  | EmptyString => EmptyString
  | String c s' =>
      match rstrip s' with
      | EmptyString => if isspace c then EmptyString else String c EmptyString
      | r => String c r
      end
  end.

(** [s.strip()] *)
Definition strip (s : string) : string := rstrip (lstrip s).

(** [s.lower()] on ASCII text: the letters A..Z are mapped to a..z. *)
Definition lower_char (c : ascii) : ascii :=
  let n := nat_of_ascii c in
  if ((65 <=? n) && (n <=? 90))%nat then ascii_of_nat (n + 32) else c.

Fixpoint lower (s : string) : string :=
  match s with
  | EmptyString => EmptyString
  | String c s' => String (lower_char c) (lower s')
  end.

(** [s.endswith(suffix)]: the last [len(suffix)] characters of [s] are
    compared with [suffix]. *)
Definition endswith (s suffix : string) : bool :=
  let n := String.length s in
  let m := String.length suffix in
  if (m <=? n)%nat then String.eqb (substring (n - m) m s) suffix else false.

(** [str(n)] and the formatting of an [int] in an f-string. *)
Definition str (n : Z) : string := NilZero.string_of_int (Z.to_int n).

Definition digit_value (c : ascii) : option Z :=
  let n := nat_of_ascii c in
  if ((48 <=? n) && (n <=? 57))%nat then Some (Z.of_nat (n - 48)) else None.

(** The digits of a base-10 literal as [int] accepts them: digits, with
    single underscores allowed between two digits. [prev] tells whether the
    previous character was a digit. *)
Fixpoint int_digits (s : string) (acc : Z) (prev : bool) : option Z :=
  match s with
  | EmptyString => if prev then Some acc else None
  | String c s' =>
      match digit_value c with
      | Some d => int_digits s' (10 * acc + d) true
      | None =>
          if (Ascii.eqb c "_" && prev)%bool then int_digits s' acc false
          else None
      end
  end.

(** [int(s)] for a string: surrounding white space is ignored, then an
    optional sign and the digits; anything else is a [ValueError]. (The
    interpreter's optional cap on the number of digits, thousands of
    digits, is outside this model.) *)
Definition int (s : string) : result Z :=
  let body (ds : string) (sign : Z) :=
    match int_digits ds 0 false with
    | Some v => Ok (sign * v)
    | None => Raise ValueError
    end in
  match strip s with
  | String c ds =>
      if Ascii.eqb c "+" then body ds 1
      else if Ascii.eqb c "-" then body ds (-1)
      else body (String c ds) 1
  | EmptyString => body EmptyString 1
  end.

(** Truth value of an [int]-or-[None], as used by [if x:] and [if not x:]. *)
Definition truthy (x : option Z) : bool :=
  match x with
  | None => false
  | Some v => negb (v =? 0)
  end.

(** [range(n)] *)
Definition range (n : Z) : list Z := map Z.of_nat (seq 0 (Z.to_nat n)).

End Py.

Import Py.

(** ** The operating system and the effects of a script *)

Module Sys.

(** What the scripts ask of the platform. The lookup utility and the bind
    probe only observe the state; spawning, signalling, sleeping, reading
    the terminal and serving move it. An implementation of this interface
    is a model of the machine the scripts run on. *)
Class OSModel : Type := {
  OS : Type;
  (** [subprocess.run(argv, capture_output=True, text=True).stdout] *)
  subprocess_run : OS -> list string -> result string;
  (** [subprocess.Popen(argv)] *)
  subprocess_Popen : OS -> list string -> result OS;
  (** [os.kill(pid, signal.SIGTERM)] *)
  os_kill : OS -> Z -> result OS;
  (** [time.sleep(seconds)] *)
  time_sleep : OS -> Z -> OS;
  (** [socket.socket(socket.AF_INET, socket.SOCK_STREAM)] *)
  socket_socket : OS -> result unit;
  (** [sock.bind(('', port))] on a fresh socket, closed at once: it returns,
      or raises ([OSError] when the port is taken) *)
  socket_bind : OS -> Z -> result unit;
  (** without a socket nothing is bound: when the creation raises, that
      exception is the outcome of the bind on a fresh socket *)
  socket_bind_fresh :
    forall o port e, socket_socket o = Raise e -> socket_bind o port = Raise e;
  (** the line typed at an [input(...)] prompt *)
  stdin_readline : OS -> result string * OS;
  (** construction of the listening [TCPServer(("", port), handler)] *)
  TCPServer : OS -> Z -> result OS;
  (** [httpd.serve_forever()]: it only ends by an exception *)
  serve_forever : OS -> exn * OS;
  (** [httpd.server_close()], run when the [with] block of the server on
      that port is left *)
  server_close : OS -> Z -> OS;
  (** [sys.executable] *)
  sys_executable : string;
  (** text of an exception in an f-string *)
  exn_str : exn -> string
}.

(** Actions of a script that are visible from outside. *)
Inductive event : Type :=
| Print (line : string)
| Chdir
| Probe (port : Z)
| Input (prompt : string)
| Run (argv : list string)
| Popen (argv : list string)
| Kill (pid : Z)
| Sleep (seconds : Z)
| Listen (port : Z)
| ServeForever
| Close (port : Z).

Section Effects.
Context {osm : OSModel}.

Record world : Type := World { os : OS; log : list event }.

(** A script: from a world to an outcome (a value or a raised exception)
    and the world it leaves. *)
Definition M (A : Type) : Type := world -> result A * world.

Definition ret {A} (a : A) : M A := fun w => (Ok a, w).

Definition bind {A B} (m : M A) (k : A -> M B) : M B :=
  fun w =>
    match m w with
    | (Ok a, w') => k a w'
    | (Raise e, w') => (Raise e, w')
    end.

Definition raise {A} (e : exn) : M A := fun w => (Raise e, w).

(** [try: body  except <class> as e: handler e] *)
Definition try_except {A} (body : M A) (catches : exn -> bool)
           (handler : exn -> M A) : M A :=
  fun w =>
    match body w with
    | (Ok a, w') => (Ok a, w')
    | (Raise e, w') => if catches e then handler e w' else (Raise e, w')
    end.

Definition emit (e : event) : M unit :=
  fun w => (Ok tt, World (os w) (log w ++ [e])).

Definition print (line : string) : M unit := emit (Print line).

(** An observation of the platform, logged. *)
Definition observe {A} (e : event) (f : OS -> result A) : M A :=
  fun w =>
    let w' := World (os w) (log w ++ [e]) in
    (f (os w), w').

(** An observation of the platform that leaves no trace. *)
Definition peek {A} (f : OS -> result A) : M A :=
  fun w => (f (os w), w).

(** [with ... :] and [try: ... finally:]: the exit code runs whether the body
    returns or raises, and the outcome of the body is kept. *)
Definition finally {A} (body : M A) (exit : M unit) : M A :=
  fun w =>
    match body w with
    | (r, w') =>
        match exit w' with
        | (Ok _, w'') => (r, w'')
        | (Raise e, w'') => (Raise e, w'')
        end
    end.

(** An action on the platform, logged; the state is kept when it raises. *)
Definition act (e : event) (f : OS -> result OS) : M unit :=
  fun w =>
    match f (os w) with
    | Ok o => (Ok tt, World o (log w ++ [e]))
    | Raise x => (Raise x, World (os w) (log w ++ [e]))
    end.

Definition sys_exit {A} (code : Z) : M A := raise (SystemExit code).

Definition run (argv : list string) : M string :=
  observe (Run argv) (fun o => subprocess_run o argv).

Definition popen (argv : list string) : M unit :=
  act (Popen argv) (fun o => subprocess_Popen o argv).

Definition kill (pid : Z) : M unit :=
  act (Kill pid) (fun o => os_kill o pid).

Definition sleep (seconds : Z) : M unit :=
  act (Sleep seconds) (fun o => Ok (time_sleep o seconds)).

Definition chdir_script_directory : M unit := emit Chdir.

Definition input (prompt : string) : M string :=
  fun w =>
    let (r, o) := stdin_readline (os w) in
    (r, World o (log w ++ [Input prompt])).

End Effects.

End Sys.

Import Sys.

Declare Scope script_scope.
Delimit Scope script_scope with script.
Notation "x <- c ;; k" := (bind c (fun x => k))
  (at level 61, c at next level, right associativity) : script_scope.
Notation "c ;;; k" := (bind c (fun _ => k))
  (at level 61, right associativity) : script_scope.
Open Scope script_scope.

(** ** server.py *)

Module Server.

Definition PORT : Z := 8080.

(** *** The request handler

    The handler object of [http.server] for one request: the path and the
    version of the request as the library has set them, the lines of the
    response head collected by [send_response_only] and [send_header], and
    what has been written to the client. [path] is [None] as long as the
    library has not set the attribute. *)

Definition header : Type := (string * string)%type.

(** A line of the head of a response. *)
Inductive line : Type :=
| StatusLine (code : Z)
| HeaderLine (keyword value : string).

Record handler : Type := Handler {
  path : option string;
  request_version : string;
  _headers_buffer : list line;
  wfile : list line;
  headers_done : bool;
  body : list Byte.byte
}.

(** A reply the library decides on: status, its own headers, body. *)
Definition reply : Type := (Z * list header * list Byte.byte)%type.

(** What the library makes of a request before a [do_] method is called:
    nothing to answer; an error reply sent while [self.path] is not yet set
    (request line too long, bad version, bad syntax, bad HTTP/0.9 request
    type), with the request version in force at that moment; an error reply
    sent after command and path are set (the header lines cannot be read);
    or command, path and version of an accepted request. *)
Inductive parsed : Type :=
| NoRequest
| RejectedEarly (version : string) (error : reply)
| RejectedLate (command target version : string) (error : reply)
| Accepted (command target version : string).

(** The part of the standard library the handler is built on: the values of
    the [Server] and [Date] headers, the reading of a request, and, for an
    accepted request that [SimpleHTTPRequestHandler] answers itself
    ([do_GET], [do_HEAD]) or refuses (no [do_] method), the reply it chooses,
    or the exception that escapes before anything is sent. *)
Class HttpLib : Type := {
  version_string : string;
  date_time_string : string;
  parse_request : string -> parsed;
  base_plan : string -> result reply
}.

Definition new_handler (target : option string) (version : string) : handler :=
  Handler target version [] [] false [].

Definition buffer_line (l : line) (self : handler) : handler :=
  Handler (path self) (request_version self)
          (_headers_buffer self ++ [l])
          (wfile self) (headers_done self) (body self).

(** [BaseHTTPRequestHandler.send_response_only]: nothing for a request
    in HTTP/0.9 form *)
Definition send_response_only (code : Z) (self : handler) : handler :=
  if String.eqb (request_version self) "HTTP/0.9" then self
  else buffer_line (StatusLine code) self.

(** [BaseHTTPRequestHandler.send_header]: nothing for a request in HTTP/0.9
    form *)
Definition send_header (keyword value : string) (self : handler) : handler :=
  if String.eqb (request_version self) "HTTP/0.9" then self
  else buffer_line (HeaderLine keyword value) self.

(** [BaseHTTPRequestHandler.end_headers]: the collected lines are written
    out and the head is closed; nothing for a request in HTTP/0.9 form. *)
Definition base_end_headers (self : handler) : handler :=
  if String.eqb (request_version self) "HTTP/0.9" then self
  else Handler (path self) (request_version self) []
               (wfile self ++ _headers_buffer self) true (body self).

(** [BaseHTTPRequestHandler.send_response] *)
Definition send_response {lib : HttpLib} (code : Z) (self : handler) : handler :=
  let self := send_response_only code self in
  let self := send_header "Server" version_string self in
  send_header "Date" date_time_string self.

Definition wfile_write (data : list Byte.byte) (self : handler) : handler :=
  Handler (path self) (request_version self) (_headers_buffer self)
          (wfile self) (headers_done self) (body self ++ data).

(** [MyHTTPRequestHandler.end_headers]. Reading [self.path] raises
    [AttributeError] when the attribute is not set. *)
Definition end_headers (self : handler) : result unit * handler :=
  let self := send_header "Access-Control-Allow-Origin" "*" self in
  let self := send_header "Access-Control-Allow-Methods" "GET, POST, OPTIONS" self in
  let self := send_header "Access-Control-Allow-Headers" "Content-Type" self in
  match path self with
  | None => (Raise AttributeError, self)
  | Some target =>
      let self :=
        if endswith target ".js"
        then send_header "Content-Type" "application/javascript" self
        else self in
      (Ok tt, base_end_headers self)
  end.

(** [MyHTTPRequestHandler.do_OPTIONS] *)
Definition do_OPTIONS {lib : HttpLib} (self : handler) : result unit * handler :=
  let self := send_response 200 self in
  end_headers self.

(** How the library sends a reply ([send_head] and [send_error] alike):
    status line, the library's own headers, [self.end_headers()], which is
    the method above, then the body. *)
Definition send_reply {lib : HttpLib} (r : reply) (self : handler)
  : result unit * handler :=
  let '(code, hs, data) := r in
  let self := send_response code self in
  let self := fold_left (fun h kv => send_header (fst kv) (snd kv) h) hs self in
  match end_headers self with
  | (Ok _, self) => (Ok tt, wfile_write data self)
  | (Raise e, self) => (Raise e, self)
  end.

(** [handle_one_request] on the request as received: the library reads it,
    answers an error itself or dispatches on the command. *)
Definition handle_one_request {lib : HttpLib} (raw : string) : result unit * handler :=
  match parse_request raw with
  | NoRequest => (Ok tt, new_handler None "HTTP/0.9")
  | RejectedEarly version error => send_reply error (new_handler None version)
  | RejectedLate _ target version error =>
      send_reply error (new_handler (Some target) version)
  | Accepted command target version =>
      let self := new_handler (Some target) version in
      if String.eqb command "OPTIONS" then do_OPTIONS self
      else match base_plan raw with
           | Ok r => send_reply r self
           | Raise e => (Raise e, self)
           end
  end.

(** *** Port probing and conflict resolution *)

Section Ports.
Context {osm : OSModel}.

(** [check_port_available]: the socket is created before the [try], so that
    only the exceptions of the bind are examined. *)
Definition check_port_available (port : Z) : M bool :=
  observe (Probe port) (fun o => socket_socket o) ;;;
  try_except
    (peek (fun o => socket_bind o port) ;;;
     ret true)
    is_OSError
    (fun _ => ret false).

(** [find_available_port]: the [for] loop over [range(max_attempts)] *)
Fixpoint find_available_port_loop (start_port : Z) (attempts : list Z) : M (option Z) :=
  match attempts with
  | [] => ret None
  | i :: rest =>
      let port := start_port + i in
      free <- check_port_available port ;;
      if free then ret (Some port) else find_available_port_loop start_port rest
  end.

Definition find_available_port (start_port : Z) (max_attempts : Z) : M (option Z) :=
  find_available_port_loop start_port (range max_attempts).

(** the default value of [max_attempts] *)
Definition max_attempts_default : Z := 10.

(** [kill_existing_server]. The body of the [try] gives [Some true] when it
    returns, [None] when control falls through to the final [return False]. *)
Definition kill_existing_server (port : Z) : M bool :=
  r <- try_except
         (stdout <- run ["lsof"; "-ti"; ":" ++ str port] ;;
          if negb (String.eqb (strip stdout) "") then
            match int (strip stdout) with
            | Raise e => raise e
            | Ok pid =>
                kill pid ;;;
                print ("Killed existing server process (PID: " ++ str pid ++ ")") ;;;
                sleep 1 ;;;
                ret (Some true)
            end
          else ret None)
         is_Exception
         (fun e => print ("Could not kill existing process: " ++ exn_str e) ;;; ret None) ;;
  match r with
  | Some b => ret b
  | None => ret false
  end.

(** The body of [if choice == "2":], the forward scan from the port after
    [PORT]. *)
Definition use_alternative_port : M Z :=
  new_port <- find_available_port (PORT + 1) max_attempts_default ;;
  match new_port with
  | Some p =>
      if truthy new_port then
        print ("Using alternative port: " ++ str p) ;;; ret p
      else
        print "No available ports found. Exiting." ;;; sys_exit 1
  | None => print "No available ports found. Exiting." ;;; sys_exit 1
  end.

(** The lines printed before the operator is asked. *)
Definition print_options : M unit :=
  print ("Port " ++ str PORT ++ " is already in use.") ;;;
  print (nl ++ "Options:") ;;;
  print "1. Kill existing server and start new one" ;;;
  print "2. Find and use an alternative port" ;;;
  print "3. Exit".

(** The port-conflict dialogue of the main block: it gives the port to serve
    on, or leaves the script by [sys.exit]. *)
Definition resolve_conflict : M Z :=
  print_options ;;;
  line <- input (nl ++ "Enter your choice (1-3): ") ;;
  let choice := strip line in
  choice <- (if String.eqb choice "1" then
               killed <- kill_existing_server PORT ;;
               if killed then
                 print "Existing server killed successfully." ;;; ret choice
               else
                 print "Failed to kill existing server. Trying alternative port..." ;;;
                 ret "2"
             else ret choice) ;;
  if String.eqb choice "2" then use_alternative_port
  else if String.eqb choice "3" then
    print "Exiting." ;;; sys_exit 0
  else ret PORT.

(** The last block of the script: bind, announce, serve until interrupted;
    the listening socket is closed when the [with] block is left, normally
    or by an exception. *)
Definition serve (port : Z) : M unit :=
  try_except
    (act (Listen port) (fun o => TCPServer o port) ;;;
     finally
       (print (nl ++ "✅ Server running at http://localhost:" ++ str port ++ "/") ;;;
        print "Press Ctrl-C to stop the server" ;;;
        try_except
          (fun w => let (e, o) := serve_forever (os w) in
                    (Raise e, World o (log w ++ [ServeForever])))
          (fun e => match e with KeyboardInterrupt => true | _ => false end)
          (fun _ => print (nl ++ nl ++ "🛑 Server stopped.")))
       (act (Close port) (fun o => Ok (server_close o port))))
    is_Exception
    (fun e =>
       print (nl ++ "❌ Error starting server: " ++ exn_str e) ;;;
       print (nl ++ "Troubleshooting tips:") ;;;
       print ("1. Check if port " ++ str port ++ " is in use: lsof -i :" ++ str port) ;;;
       print "2. Kill the process manually: kill -9 <PID>" ;;;
       print "3. Try a different port by editing PORT variable in server.py" ;;;
       sys_exit 1).

(** The script run as [__main__]. *)
Definition main : M unit :=
  chdir_script_directory ;;;
  free <- check_port_available PORT ;;
  port <- (if negb free then resolve_conflict else ret PORT) ;;
  serve port.

End Ports.

End Server.

(** ** manage_server.py *)

Module Manager.

Definition PORT : Z := 8080.
Definition SERVER_SCRIPT : string := "server.py".

Section Commands.
Context {osm : OSModel}.

(** [get_server_pid]. The body of the [try] gives [Some pid] when it
    returns, [None] when control reaches the final [return None]. *)
Definition get_server_pid (port : Z) : M (option Z) :=
  r <- try_except
         (stdout <- run ["lsof"; "-ti"; ":" ++ str port] ;;
          if negb (String.eqb (strip stdout) "") then
            match int (strip stdout) with
            | Raise e => raise e
            | Ok pid => ret (Some pid)
            end
          else ret None)
         is_Exception
         (fun _ => ret None) ;;
  match r with
  | Some pid => ret (Some pid)
  | None => ret None
  end.

(** [is_server_running]: [get_server_pid(port) is not None] *)
Definition is_server_running (port : Z) : M bool :=
  pid <- get_server_pid port ;;
  ret (match pid with Some _ => true | None => false end).

(** [start_server] *)
Definition start_server : M bool :=
  running <- is_server_running PORT ;;
  if running then
    print ("❌ Server is already running on port " ++ str PORT) ;;;
    print "Use './manage_server.py restart' to restart it" ;;;
    ret false
  else
    print ("Starting server on port " ++ str PORT ++ "...") ;;;
    popen [sys_executable; SERVER_SCRIPT] ;;;
    sleep 2 ;;;
    running <- is_server_running PORT ;;
    if running then
      print ("✅ Server started successfully at http://localhost:" ++ str PORT ++ "/") ;;;
      ret true
    else
      print "❌ Failed to start server" ;;;
      ret false.

(** [stop_server] *)
Definition stop_server : M bool :=
  pid <- get_server_pid PORT ;;
  match pid with
  | Some p =>
      if negb (truthy pid) then
        print "❌ No server is running" ;;; ret false
      else
        try_except
          (kill p ;;;
           print ("✅ Server stopped (PID: " ++ str p ++ ")") ;;;
           sleep 1 ;;;
           ret true)
          is_Exception
          (fun e => print ("❌ Failed to stop server: " ++ exn_str e) ;;; ret false)
  | None => print "❌ No server is running" ;;; ret false
  end.

(** [restart_server] *)
Definition restart_server : M unit :=
  print "Restarting server..." ;;;
  running <- is_server_running PORT ;;
  (if running then stop_server ;;; ret tt else ret tt) ;;;
  start_server ;;;
  ret tt.

(** [status_server] *)
Definition status_server : M unit :=
  pid <- get_server_pid PORT ;;
  match pid with
  | Some p =>
      if truthy pid then
        print ("✅ Server is running (PID: " ++ str p ++ ")") ;;;
        print ("   URL: http://localhost:" ++ str PORT ++ "/")
      else print "❌ Server is not running"
  | None => print "❌ Server is not running"
  end.

(** The four-way switch of [main] on the lowercased argument. *)
Definition dispatch (command : string) : M unit :=
  if String.eqb command "start" then start_server ;;; ret tt
  else if String.eqb command "stop" then stop_server ;;; ret tt
  else if String.eqb command "restart" then restart_server
  else if String.eqb command "status" then status_server
  else
    print ("Unknown command: " ++ command) ;;;
    print "Available commands: start, stop, restart, status" ;;;
    sys_exit 1.

(** [main], on [sys.argv] *)
Definition main (argv : list string) : M unit :=
  match argv with
  | _ :: arg :: _ =>
      let command := lower arg in
      chdir_script_directory ;;;
      dispatch command
  | _ =>
      print "Usage: ./manage_server.py [start|stop|restart|status]" ;;;
      sys_exit 1
  end.

End Commands.

End Manager.

(** ** create_favicon.py *)

Module Favicon.

(** The script needs the imaging library. [pil_installed] tells whether
    [from PIL import ...] succeeds; [render] is the outcome of the drawing and
    saving calls of [create_favicon] when the library is there: the files
    written, or an exception. *)
Record env : Type := Env {
  pil_installed : bool;
  render : result (list (string * list Byte.byte))
}.

(** What a run leaves behind: files written (later entries overwrite earlier
    ones of the same name) and lines printed. *)
Record state : Type := State {
  files : list (string * list Byte.byte);
  stdout : list string
}.

Definition F (A : Type) : Type := state -> result A * state.

Definition fprint (line : string) : F unit :=
  fun s => (Ok tt, State (files s) (stdout s ++ [line])).

Definition fseq {A} (a : F unit) (b : F A) : F A :=
  fun s => match a s with (Ok _, s') => b s' | (Raise e, s') => (Raise e, s') end.

(** [from PIL import Image, ImageDraw, ImageFont] *)
Definition import_PIL (e : env) : F unit :=
  fun s => if pil_installed e then (Ok tt, s) else (Raise ModuleNotFoundError, s).

(** [create_favicon] *)
Definition create_favicon (e : env) : F unit :=
  fseq (fun s => match render e with
                 | Ok written => (Ok tt, State (files s ++ written) (stdout s))
                 | Raise x => (Raise x, s)
                 end)
  (fseq (fprint "Favicon created successfully!")
  (fseq (fprint "Files created:")
  (fseq (fprint "- favicon.ico")
  (fseq (fprint "- favicon-32x32.png")
        (fprint "- favicon-16x16.png"))))).

(** The 14 bytes written first by the fallback. *)
Definition placeholder_header : list Byte.byte :=
  [Byte.x00; Byte.x00; Byte.x01; Byte.x00; Byte.x01; Byte.x00; Byte.x10;
   Byte.x10; Byte.x00; Byte.x00; Byte.x01; Byte.x00; Byte.x01; Byte.x00].

(** [b'\x00' * 1000] *)
Definition placeholder_padding : list Byte.byte := repeat Byte.x00 1000.

(** [with open('favicon.ico', 'wb') as f:] followed by the two writes *)
Definition write_placeholder : F unit :=
  fun s => (Ok tt, State (files s ++ [("favicon.ico", (placeholder_header ++ placeholder_padding)%list)])
                         (stdout s)).

(** The [except ImportError] block. *)
Definition fallback : F unit :=
  fseq (fprint "Pillow library not installed. Creating a simple text file as placeholder.")
  (fseq write_placeholder
  (fseq (fprint "Created placeholder favicon.ico")
        (fprint "To create a proper favicon, install Pillow: pip install Pillow"))).

(** The [if __name__ == "__main__":] block. *)
Definition main_block (e : env) : F unit :=
  fun s =>
    match fseq (import_PIL e) (create_favicon e) s with
    | (Ok u, s') => (Ok u, s')
    | (Raise x, s') => if is_ImportError x then fallback s' else (Raise x, s')
    end.

(** The script, statement by statement: the import at the top of the module,
    the definition of [create_favicon] (no effect), the main block. *)
Definition script (e : env) : F unit :=
  fseq (import_PIL e) (main_block e).

Definition initial : state := State [] [].

End Favicon.

(** ** A small machine

    A concrete implementation of the platform interface, used to run the
    scripts on explicit inputs: a table of listening sockets with their
    owning processes, the lookup utility installed or not, processes that
    ignore the termination signal, and the lines waiting on the terminal. *)

Module Machine.

Record machine : Type := Mk {
  sockets : list (Z * Z);
  lsof_installed : bool;
  ignores_sigterm : list Z;
  keyboard : list string;
  next_pid : Z
}.

(** [lsof -ti :port] prints the identifier of every process holding the
    port, one per line. *)
Definition lsof_ti (m : machine) (addr : string) : string :=
  String.concat ""
    (map (fun pp => str (snd pp) ++ nl)
         (filter (fun pp => String.eqb (":" ++ str (fst pp)) addr) (sockets m))).

Definition m_run (m : machine) (argv : list string) : result string :=
  if lsof_installed m then
    match argv with
    | [prog; flags; addr] =>
        if (String.eqb prog "lsof" && String.eqb flags "-ti")%bool
        then Ok (lsof_ti m addr) else Ok ""
    | _ => Ok ""
    end
  else Raise FileNotFoundError.

Definition port_free (m : machine) (port : Z) : bool :=
  negb (existsb (fun pp => fst pp =? port) (sockets m)).

(** A bind succeeds on a free port, fails with [OSError] on a port in use,
    and with [OverflowError] on a number that is not a port. *)
Definition m_bind (m : machine) (port : Z) : result unit :=
  if ((0 <=? port) && (port <=? 65535))%bool then
    if port_free m port then Ok tt else Raise OSError
  else Raise OverflowError.

Definition m_listen (m : machine) (port : Z) : result machine :=
  if port_free m port
  then Ok (Mk ((port, next_pid m) :: sockets m) (lsof_installed m)
              (ignores_sigterm m) (keyboard m) (next_pid m + 1))
  else Raise OSError.

Definition m_popen (m : machine) (argv : list string) : result machine :=
  match m_listen m 8080 with
  | Ok m' => Ok m'
  | Raise _ => Ok m
  end.

Definition m_kill (m : machine) (pid : Z) : result machine :=
  if existsb (fun pp => snd pp =? pid) (sockets m) then
    if existsb (Z.eqb pid) (ignores_sigterm m) then Ok m
    else Ok (Mk (filter (fun pp => negb (snd pp =? pid)) (sockets m))
                (lsof_installed m) (ignores_sigterm m) (keyboard m) (next_pid m))
  else Raise ProcessLookupError.

(** Closing the listening socket that [m_listen] opened on the port. *)
Definition m_close (m : machine) (port : Z) : machine :=
  Mk (filter (fun pp => negb ((fst pp =? port) && (snd pp =? next_pid m - 1))%bool)
             (sockets m))
     (lsof_installed m) (ignores_sigterm m) (keyboard m) (next_pid m).

(** On this machine a socket can always be created. *)
Lemma m_bind_fresh (m : machine) (port : Z) (e : exn) :
  Ok tt = Raise e -> m_bind m port = Raise e.
Proof. discriminate. Qed.

Definition m_readline (m : machine) : result string * machine :=
  match keyboard m with
  | [] => (Raise EOFError, m)
  | line :: rest =>
      (Ok line, Mk (sockets m) (lsof_installed m) (ignores_sigterm m) rest (next_pid m))
  end.

#[export] Instance machine_os : OSModel := {
  OS := machine;
  subprocess_run := m_run;
  subprocess_Popen := m_popen;
  os_kill := m_kill;
  time_sleep := fun m _ => m;
  socket_socket := fun _ => Ok tt;
  socket_bind := m_bind;
  socket_bind_fresh := m_bind_fresh;
  stdin_readline := m_readline;
  TCPServer := m_listen;
  serve_forever := fun m => (KeyboardInterrupt, m);
  server_close := m_close;
  sys_executable := "/usr/bin/python3";
  exn_str := fun _ => "error"
}.

(** A library environment for the request handler. The request is the
    request line as received; it is read as [parse_request] of [http.server]
    reads it (words, version, HTTP/0.9 form), no header line follows, [GET]
    and [HEAD] are answered with a page and any other command is refused. *)

(** [s.split()] *)
Fixpoint words_from (s cur : string) : list string :=
  match s with
  | EmptyString => if String.eqb cur "" then [] else [cur]
  | String c s' =>
      if isspace c
      then (if String.eqb cur "" then words_from s' "" else cur :: words_from s' "")
      else words_from s' (cur ++ String c "")
  end.

(** [s.split(sep)] for a separator of one character *)
Fixpoint split_on (sep : ascii) (s cur : string) : list string :=
  match s with
  | EmptyString => [cur]
  | String c s' =>
      if Ascii.eqb c sep then cur :: split_on sep s' ""
      else split_on sep s' (cur ++ String c "")
  end.

(** [s.rstrip('\r\n')] *)
Fixpoint rstrip_crlf (s : string) : string :=
  match s with
  | EmptyString => EmptyString
  | String c s' =>
      match rstrip_crlf s' with
      | EmptyString =>
          if (Ascii.eqb c (ascii_of_nat 13) || Ascii.eqb c (ascii_of_nat 10))%bool
          then EmptyString else String c EmptyString
      | r => String c r
      end
  end.

(** [s.lstrip('/')] *)
Fixpoint lstrip_slash (s : string) : string :=
  match s with
  | String "/" s' => lstrip_slash s'
  | _ => s
  end.

(** The two numbers of a version [HTTP/major.minor]. *)
Definition version_number (version : string) : option (Z * Z) :=
  if String.prefix "HTTP/" version then
    match split_on "." (substring 5 (String.length version - 5) version) "" with
    | [major; minor] =>
        match int major, int minor with
        | Ok a, Ok b => Some (a, b)
        | _, _ => None
        end
    | _ => None
    end
  else None.

Definition error_reply (code : Z) : Server.reply :=
  (code, [("Connection", "close"); ("Content-Type", "text/html;charset=utf-8")],
   [Byte.x3c; Byte.x21; Byte.x3e]).

Definition read_request (raw : string) : Server.parsed :=
  if 65536 <? Z.of_nat (String.length raw) then Server.RejectedEarly "" (error_reply 414)
  else
    let ws := words_from (rstrip_crlf raw) "" in
    match ws with
    | [] => Server.NoRequest
    | _ =>
        let checked :=
          if (3 <=? List.length ws)%nat then
            match version_number (last ws "") with
            | None => inl (error_reply 400)
            | Some (major, minor) =>
                if ((2 <? major) || ((major =? 2) && (0 <=? minor)))%bool
                then inl (error_reply 505)
                else inr (last ws "")
            end
          else inr "HTTP/0.9" in
        match checked with
        | inl error => Server.RejectedEarly "HTTP/0.9" error
        | inr version =>
            let target p :=
              if String.prefix "//" p then "/" ++ lstrip_slash p else p in
            match ws with
            | [command; p] =>
                if String.eqb command "GET"
                then Server.Accepted command (target p) version
                else Server.RejectedEarly version (error_reply 400)
            | [command; p; _] => Server.Accepted command (target p) version
            | _ => Server.RejectedEarly version (error_reply 400)
            end
        end
    end.

Definition page : list Byte.byte := [Byte.x3c; Byte.x70; Byte.x3e].

(** [needle in s] *)
Fixpoint mentions (needle s : string) : bool :=
  match s with
  | EmptyString => String.eqb needle ""
  | String _ s' => (String.prefix needle s || mentions needle s')%bool
  end.

(** Every path is the same page, except that a path with an escaped NUL
    cannot be opened: [open] raises [ValueError], which [send_head] does not
    catch. *)
#[export] Instance http_lib : Server.HttpLib := {
  Server.version_string := "SimpleHTTP/0.6 Python/3";
  Server.date_time_string := "Thu, 01 Jan 1970 00:00:00 GMT";
  Server.parse_request := read_request;
  Server.base_plan := fun raw =>
    match read_request raw with
    | Server.Accepted command target _ =>
        if (String.eqb command "GET" || String.eqb command "HEAD")%bool then
          if mentions "%00" target then Raise ValueError
          else Ok (200, [("Content-type", "text/html")],
                   if String.eqb command "GET" then page else [])
        else Ok (501, [("Connection", "close")], [])
    | _ => Ok (501, [("Connection", "close")], [])
    end
}.

Definition boot (m : machine) : world := World m [].

(** Port 8080 held by process 4242. *)
Definition busy : machine := Mk [(8080, 4242)] true [] [] 5000.

(** Nothing listening. *)
Definition idle : machine := Mk [] true [] [] 5000.

(** Ports 8080..8089 all held, except 8087. *)
Definition crowded : machine :=
  Mk [(8080, 4242); (8081, 4243); (8082, 4244); (8083, 4245); (8084, 4246);
              (8085, 4247); (8086, 4248); (8088, 4249); (8089, 4250)]
             true [] [] 5000.

(** Port 8080 held by two processes (a server and a connected client, say):
    the lookup prints both identifiers. *)
Definition shared : machine :=
  Mk [(8080, 4242); (8080, 4243)] true [] [] 5000.

(** Port 8080 held by two processes, so that the lookup does not give one
    identifier to signal; the operator answers 1. *)
Definition unkillable : machine :=
  Mk [(8080, 4242); (8080, 4243)] true [] ["1"] 5000.

(** Port 8080 held by a process that ignores the termination signal; the
    operator answers 1. *)
Definition stubborn : machine :=
  Mk [(8080, 4242)] true [4242] ["1"] 5000.

End Machine.

(** ** Vocabulary of the properties *)

Module Spec.

Section Handler.
Context {lib : Server.HttpLib}.
Import Server.

(** The head of a reply as the library sends it, before [end_headers] is
    called: status line, [Server] and [Date], its own headers. *)
Definition library_head (r : reply) : list line :=
  StatusLine (fst (fst r)) ::
  HeaderLine "Server" version_string ::
  HeaderLine "Date" date_time_string ::
  map (fun kv => HeaderLine (fst kv) (snd kv)) (snd (fst r)).

(** The three CORS lines, and the content type of a script. *)
Definition cors_lines : list line :=
  [HeaderLine "Access-Control-Allow-Origin" "*";
   HeaderLine "Access-Control-Allow-Methods" "GET, POST, OPTIONS";
   HeaderLine "Access-Control-Allow-Headers" "Content-Type"].

Definition javascript_line : line :=
  HeaderLine "Content-Type" "application/javascript".

(** The header lines, and the status, that the client has received. *)
Definition sent_headers (self : handler) : list header :=
  flat_map (fun l => match l with
                     | HeaderLine k v => [(k, v)]
                     | StatusLine _ => []
                     end) (wfile self).

Definition sent_status (self : handler) : option Z :=
  match wfile self with
  | StatusLine code :: _ => Some code
  | _ => None
  end.

(** The request reaches a reply with its path set: it is accepted and
    answered by [do_OPTIONS] (status 200, no header and no body of its own),
    accepted and answered by the library without an exception, or refused by
    the library after it has set command and path. *)
Definition replies (raw target version : string) (r : reply) : Prop :=
  (parse_request raw = Accepted "OPTIONS" target version /\ r = (200, [], [])) \/
  (exists command,
      parse_request raw = Accepted command target version /\
      String.eqb command "OPTIONS" = false /\ base_plan raw = Ok r) \/
  (exists command, parse_request raw = RejectedLate command target version r).

End Handler.

Section Platform.
Context {osm : OSModel}.
Import Server.

(** The command line of the lookup utility for a port. *)
Definition lookup_argv (port : Z) : list string := ["lsof"; "-ti"; ":" ++ str port].

(** The bind probe of a port passes. *)
Definition probe_passes (o : OS) (port : Z) : Prop := socket_bind o port = Ok tt.

(** The bind probe of a port fails: a socket is created and the bind raises
    [OSError]. *)
Definition probe_fails (o : OS) (port : Z) : Prop :=
  socket_socket o = Ok tt /\
  exists e, socket_bind o port = Raise e /\ is_OSError e = true.

(** [q] is the first port from [P] on, among ten, that passes the probe. *)
Definition first_free (o : OS) (P q : Z) : Prop :=
  P <= q <= P + 9 /\ probe_passes o q /\
  forall r, P <= r < q -> probe_fails o r.

(** None of the ten ports from [P] on passes the probe. *)
Definition none_free (o : OS) (P : Z) : Prop :=
  forall r, P <= r <= P + 9 -> probe_fails o r.

(** What the script has done when the operator answers the prompt. *)
Definition conflict_prompt : list event :=
  [Chdir; Probe PORT;
   Print "Port 8080 is already in use.";
   Print (nl ++ "Options:");
   Print "1. Kill existing server and start new one";
   Print "2. Find and use an alternative port";
   Print "3. Exit";
   Input (nl ++ "Enter your choice (1-3): ")].

End Platform.

End Spec.

Import Spec.

(** ** Further machine states *)

Module Scenes.

Import Machine.

(** Port 8080 held by process 4242, which ends when signalled; one line is
    waiting on the terminal. *)
Definition answering (line : string) : machine :=
  Mk [(8080, 4242)] true [] [line] 5000.

(** Port 8080 held by process 4242, which ignores the termination signal. *)
Definition survivor : machine := Mk [(8080, 4242)] true [4242] [] 5000.

(** The last six port numbers all held. *)
Definition topmost : machine :=
  Mk [(65530, 4242); (65531, 4243); (65532, 4244); (65533, 4245);
      (65534, 4246); (65535, 4247)] true [] [] 5000.

(** The lookup attributes port 8080 to process 0. *)
Definition zero_owner : machine := Mk [(8080, 0)] true [] [] 5000.

(** Port 8080 held by process 4242; the lookup utility is not installed. *)
Definition no_lookup : machine := Mk [(8080, 4242)] false [] [] 5000.

(** A process that has used up its file descriptors: no socket can be
    created, so nothing can be bound or listened on, and no process can be
    started; there is a single state. *)
Definition starved : OSModel := {|
  OS := unit;
  subprocess_run := fun _ _ => Raise OSError;
  subprocess_Popen := fun _ _ => Raise OSError;
  os_kill := fun _ _ => Raise ProcessLookupError;
  time_sleep := fun o _ => o;
  socket_socket := fun _ => Raise OSError;
  socket_bind := fun _ _ => Raise OSError;
  socket_bind_fresh := fun _ _ _ H => H;
  stdin_readline := fun o => (Raise EOFError, o);
  TCPServer := fun _ _ => Raise OSError;
  serve_forever := fun o => (KeyboardInterrupt, o);
  server_close := fun o _ => o;
  sys_executable := "/usr/bin/python3";
  exn_str := fun _ => "error"
|}.

End Scenes.

(** * Properties *)

(** ** The primitives and the scripts on explicit inputs *)

Example strip_ex : strip (" 12 3" ++ nl) = "12 3".
Proof. reflexivity. Qed.

Example int_ex :
  int (" -1_000" ++ nl) = Ok (-1000) /\
  int ("123" ++ nl ++ "456") = Raise ValueError /\
  int "" = Raise ValueError /\
  int "1__0" = Raise ValueError.
Proof. repeat split. Qed.

Example str_ex : str 8080 = "8080" /\ str 0 = "0" /\ str (-5) = "-5".
Proof. repeat split. Qed.

Example lower_ex : lower "ReStArT" = "restart" /\ lower "a-Z_9" = "a-z_9".
Proof. repeat split. Qed.

Example endswith_ex :
  endswith "/a.js" ".js" = true /\ endswith "js" ".js" = false /\
  endswith "/a.json" ".js" = false /\ endswith "/a.JS" ".js" = false.
Proof. repeat split. Qed.

Example range_ex : range 3 = [0; 1; 2] /\ range (-1) = [].
Proof. repeat split. Qed.

Example stop_ex :
  Manager.main (osm := Machine.machine_os) ["manage_server.py"; "stop"]
               (Machine.boot Machine.busy)
  = (Ok tt,
     World (osm := Machine.machine_os) Machine.idle
           [Chdir; Run ["lsof"; "-ti"; ":8080"]; Kill 4242;
            Print "✅ Server stopped (PID: 4242)"; Sleep 1]).
Proof. reflexivity. Qed.

Example get_ex :
  Spec.sent_headers
    (snd (Server.handle_one_request (lib := Machine.http_lib) "GET /index.html HTTP/1.1"))
  = [("Server", "SimpleHTTP/0.6 Python/3");
     ("Date", "Thu, 01 Jan 1970 00:00:00 GMT");
     ("Content-type", "text/html");
     ("Access-Control-Allow-Origin", "*");
     ("Access-Control-Allow-Methods", "GET, POST, OPTIONS");
     ("Access-Control-Allow-Headers", "Content-Type")].
Proof. reflexivity. Qed.

Example read_request_ex :
  Machine.read_request "GET /index.html"
  = Server.Accepted "GET" "/index.html" "HTTP/0.9" /\
  Machine.read_request ("OPTIONS //a.js HTTP/1.1" ++ nl)
  = Server.Accepted "OPTIONS" "/a.js" "HTTP/1.1" /\
  Machine.read_request "GET /x HTTP/2.0"
  = Server.RejectedEarly "HTTP/0.9" (Machine.error_reply 505) /\
  Machine.read_request "POST /x"
  = Server.RejectedEarly "HTTP/0.9" (Machine.error_reply 400) /\
  Machine.read_request "GET /x y HTTP/1.0"
  = Server.RejectedEarly "HTTP/1.0" (Machine.error_reply 400).
Proof. repeat split. Qed.

(** ** Strings *)

Lemma length_app (s t : string) :
  String.length (s ++ t) = (String.length s + String.length t)%nat.
Proof.
  induction s as [|c s IH]; simpl; [reflexivity | now rewrite IH].
Qed.

Lemma substring_all (s : string) : substring 0 (String.length s) s = s.
Proof.
  induction s as [|c s IH]; simpl; [reflexivity | now rewrite IH].
Qed.

Lemma substring_skip (q s : string) :
  substring (String.length q) (String.length s) (q ++ s) = s.
Proof.
  induction q as [|c q IH]; simpl.
  - apply substring_all.
  - exact IH.
Qed.

Lemma substring_split (s : string) (k : nat) :
  (k <= String.length s)%nat ->
  s = substring 0 k s ++ substring k (String.length s - k) s.
Proof.
  revert k; induction s as [|c s IH]; intros k Hk; simpl in *.
  - assert (k = 0%nat) by lia; subst; reflexivity.
  - destruct k as [|k]; simpl.
    + now rewrite substring_all.
    + f_equal. apply IH. lia.
Qed.

(** [endswith] holds exactly of the strings that are some text followed by
    the suffix. *)
Lemma endswith_app (q suffix : string) : endswith (q ++ suffix) suffix = true.
Proof.
  unfold endswith. rewrite length_app.
  destruct (Nat.leb_spec (String.length suffix) (String.length q + String.length suffix)); [|lia].
  replace (String.length q + String.length suffix - String.length suffix)%nat
    with (String.length q) by lia.
  rewrite substring_skip. apply String.eqb_refl.
Qed.

Lemma endswith_inv (s suffix : string) :
  endswith s suffix = true -> exists q, s = q ++ suffix.
Proof.
  unfold endswith.
  destruct (Nat.leb_spec (String.length suffix) (String.length s)) as [Hle|]; [|discriminate].
  intros H. apply String.eqb_eq in H.
  exists (substring 0 (String.length s - String.length suffix) s).
  pose proof (substring_split s (String.length s - String.length suffix)) as Hs.
  replace (String.length s - (String.length s - String.length suffix))%nat
    with (String.length suffix) in Hs by lia.
  rewrite H in Hs. apply Hs. lia.
Qed.

Lemma append_empty_r (s : string) : s ++ "" = s.
Proof.
  induction s as [|c s IH]; simpl; [reflexivity | now rewrite IH].
Qed.



Lemma lower_char_idem (c : ascii) : lower_char (lower_char c) = lower_char c.
Proof.
  destruct c as [[] [] [] [] [] [] [] []]; reflexivity.
Qed.

Lemma lower_idem (s : string) : lower (lower s) = lower s.
Proof.
  induction s as [|c s IH]; simpl; [reflexivity|].
  now rewrite lower_char_idem, IH.
Qed.

(** ** Decimal text: [int] reads back what [str] prints *)

Lemma rstrip_uint (d : uint) (t : string) :
  rstrip t = "" ->
  rstrip (NilEmpty.string_of_uint d ++ t) = NilEmpty.string_of_uint d.
Proof.
  intros Ht. induction d; simpl; try exact Ht;
    rewrite IHd; destruct (NilEmpty.string_of_uint d); reflexivity.
Qed.

Lemma lstrip_uint (d : uint) (t : string) :
  d <> Nil ->
  lstrip (NilEmpty.string_of_uint d ++ t) = NilEmpty.string_of_uint d ++ t.
Proof.
  destruct d; intros H; try reflexivity. now destruct H.
Qed.

Lemma strip_uint (d : uint) (t : string) :
  d <> Nil -> rstrip t = "" ->
  strip (NilEmpty.string_of_uint d ++ t) = NilEmpty.string_of_uint d.
Proof.
  intros Hd Ht. unfold strip. rewrite lstrip_uint by assumption.
  now apply rstrip_uint.
Qed.

(** Reading the digits of [d] after having read those of [d'] (kept in
    little-endian order) gives the number whose digits are both. *)
Lemma int_digits_revapp (d d' : uint) (prev : bool) :
  (d = Nil -> prev = true) ->
  int_digits (NilEmpty.string_of_uint d) (Z.of_N (Unsigned.of_lu d')) prev
  = Some (Z.of_N (Unsigned.of_lu (revapp d d'))).
Proof.
  revert d' prev.
  induction d; intros d' prev Hp; simpl NilEmpty.string_of_uint;
    [ simpl; now rewrite Hp | .. ];
    cbn [int_digits];
    match goal with
    | |- context [digit_value ?c] =>
        let v := eval cbv in (digit_value c) in
        change (digit_value c) with v; cbv iota beta
    end;
    match goal with
    | |- int_digits _ ?a true = Some (Z.of_N (Unsigned.of_lu (revapp (?D d) d'))) =>
        replace a with (Z.of_N (Unsigned.of_lu (D d')))
          by (cbn [Unsigned.of_lu]; lia);
        cbn [revapp]; apply IHd; reflexivity
    end.
Qed.

Lemma int_digits_uint (d : uint) :
  d <> Nil ->
  int_digits (NilEmpty.string_of_uint d) 0 false = Some (Z.of_N (Pos.of_uint d)).
Proof.
  intros Hd.
  rewrite Unsigned.of_uint_alt.
  change 0 with (Z.of_N (Unsigned.of_lu Nil)).
  apply int_digits_revapp. intros; contradiction.
Qed.

Lemma int_uint (d : uint) (t : string) :
  d <> Nil -> rstrip t = "" ->
  int (NilEmpty.string_of_uint d ++ t) = Ok (Z.of_N (Pos.of_uint d)).
Proof.
  intros Hd Ht. unfold int. rewrite strip_uint by assumption.
  pose proof (int_digits_uint d Hd) as E.
  destruct d; try contradiction;
    simpl NilEmpty.string_of_uint in *; cbv beta iota;
    match goal with
    | |- context [Ascii.eqb ?c "+"] =>
        change (Ascii.eqb c "+") with false; change (Ascii.eqb c "-") with false
    end;
    cbv iota; rewrite E; f_equal; lia.
Qed.

(** The decimal text of a non-negative number. *)
Lemma str_nonneg (n : Z) :
  0 <= n ->
  exists d, d <> Nil /\ str n = NilEmpty.string_of_uint d /\ Z.of_N (Pos.of_uint d) = n.
Proof.
  intros Hn. destruct n as [|p|p]; [| |lia].
  - exists (D0 Nil). repeat split. discriminate.
  - exists (Pos.to_uint p). split; [apply Unsigned.to_uint_nonnil|].
    split.
    + unfold str. simpl. unfold NilZero.string_of_uint.
      pose proof (Unsigned.to_uint_nonnil p).
      destruct (Pos.to_uint p); [contradiction | reflexivity ..].
    + now rewrite DecimalPos.Unsigned.of_to.
Qed.

(** [int] reads back a printed non-negative number, also when white space
    follows it. *)
Lemma int_str (n : Z) (t : string) :
  0 <= n -> rstrip t = "" -> int (str n ++ t) = Ok n.
Proof.
  intros Hn Ht. destruct (str_nonneg n Hn) as (d & Hd & -> & Hv).
  rewrite int_uint by assumption. now rewrite Hv.
Qed.

Lemma strip_str (n : Z) (t : string) :
  0 <= n -> rstrip t = "" -> strip (str n ++ t) = str n.
Proof.
  intros Hn Ht. destruct (str_nonneg n Hn) as (d & Hd & -> & _).
  now apply strip_uint.
Qed.

Lemma str_nonempty (n : Z) : 0 <= n -> String.eqb (str n) "" = false.
Proof.
  intros Hn. destruct (str_nonneg n Hn) as (d & Hd & -> & _).
  destruct d; [contradiction | reflexivity ..].
Qed.

(** White space in front of a text does not change what [strip] keeps. *)
Lemma lstrip_blank_app (a t : string) :
  lstrip a = "" -> lstrip (a ++ t) = lstrip t.
Proof.
  induction a as [|c a IH]; simpl; [reflexivity|].
  destruct (isspace c); [exact IH | discriminate].
Qed.

Lemma rstrip_str (n : Z) (t : string) :
  0 <= n -> rstrip t = "" -> rstrip (str n ++ t) = str n.
Proof.
  intros Hn Ht. destruct (str_nonneg n Hn) as (d & Hd & -> & _).
  now apply rstrip_uint.
Qed.

Lemma strip_padded_str (a b : string) (n : Z) :
  0 <= n -> lstrip a = "" -> rstrip b = "" ->
  strip (a ++ str n ++ b) = str n.
Proof.
  intros Hn Ha Hb. unfold strip. rewrite lstrip_blank_app by assumption.
  now apply strip_str.
Qed.

Lemma strip_padded_signed (a b : string) (c : ascii) (n : Z) :
  0 <= n -> isspace c = false -> lstrip a = "" -> rstrip b = "" ->
  strip (a ++ String c (str n ++ b)) = String c (str n).
Proof.
  intros Hn Hc Ha Hb. unfold strip. rewrite lstrip_blank_app by assumption.
  cbn [lstrip]. rewrite Hc. cbn [rstrip].
  rewrite rstrip_str by assumption.
  pose proof (str_nonempty n Hn) as E.
  destruct (str n); [discriminate E | reflexivity].
Qed.

Lemma int_digits_str (n : Z) : 0 <= n -> int_digits (str n) 0 false = Some n.
Proof.
  intros Hn. destruct (str_nonneg n Hn) as (d & Hd & -> & Hv).
  rewrite int_digits_uint by assumption. now rewrite Hv.
Qed.

(** [int] reads a sign in front of the digits. *)
Lemma int_plus_str (n : Z) : 0 <= n -> int (String "+" (str n)) = Ok n.
Proof.
  intros Hn. unfold int.
  pose proof (strip_padded_signed "" "" "+" n Hn eq_refl eq_refl eq_refl) as E.
  rewrite append_empty_r in E. simpl append in E. rewrite E.
  change (Ascii.eqb "+" "+") with true. cbv iota.
  rewrite int_digits_str by assumption. f_equal; lia.
Qed.

Lemma int_minus_str (n : Z) : 0 <= n -> int (String "-" (str n)) = Ok (- n).
Proof.
  intros Hn. unfold int.
  pose proof (strip_padded_signed "" "" "-" n Hn eq_refl eq_refl eq_refl) as E.
  rewrite append_empty_r in E. simpl append in E. rewrite E.
  change (Ascii.eqb "-" "+") with false. change (Ascii.eqb "-" "-") with true.
  cbv iota. rewrite int_digits_str by assumption. f_equal; lia.
Qed.

(** [int] only fails with [ValueError]. *)
Lemma int_raises (s : string) (e : exn) : int s = Raise e -> e = ValueError.
Proof.
  unfold int. destruct (strip s) as [|c ds].
  - simpl. intros [= <-]. reflexivity.
  - destruct (Ascii.eqb c "+"); [|destruct (Ascii.eqb c "-")];
      match goal with
      | |- context [int_digits ?a ?b ?c] => destruct (int_digits a b c)
      end; intros [=]; auto.
Qed.

(** ** The request handler *)

Section Handler.
Context {lib : Server.HttpLib}.
Local Open Scope list_scope.

Import Server.

Lemma send_headers_fold (hs : list header) (self : handler) :
  String.eqb (request_version self) "HTTP/0.9" = false ->
  fold_left (fun h kv => send_header (fst kv) (snd kv) h) hs self
  = Handler (path self) (request_version self)
            (_headers_buffer self ++ map (fun kv => HeaderLine (fst kv) (snd kv)) hs)
            (wfile self) (headers_done self) (body self).
Proof.
  revert self; induction hs as [|kv hs IH]; intros self Hv; simpl.
  - rewrite app_nil_r. now destruct self.
  - rewrite IH.
    + unfold send_header. rewrite Hv. simpl. rewrite <- app_assoc. reflexivity.
    + unfold send_header. rewrite Hv. exact Hv.
Qed.


Lemma send_header_live (keyword value : string) (self : handler) :
  String.eqb (request_version self) "HTTP/0.9" = false ->
  send_header keyword value self = buffer_line (HeaderLine keyword value) self.
Proof. intros Hv. unfold send_header. now rewrite Hv. Qed.


Lemma send_response_live (code : Z) (self : handler) :
  String.eqb (request_version self) "HTTP/0.9" = false ->
  send_response code self
  = Handler (path self) (request_version self)
            (_headers_buffer self ++
             [StatusLine code; HeaderLine "Server" version_string;
              HeaderLine "Date" date_time_string])
            (wfile self) (headers_done self) (body self).
Proof.
  intros Hv. unfold send_response, send_response_only. rewrite Hv.
  rewrite (send_header_live "Server") by exact Hv.
  rewrite (send_header_live "Date") by exact Hv.
  unfold buffer_line. simpl. rewrite <- !app_assoc. reflexivity.
Qed.


(** What [end_headers] does when the path is set. *)
Lemma end_headers_live (self : handler) (target : string) :
  path self = Some target ->
  String.eqb (request_version self) "HTTP/0.9" = false ->
  end_headers self
  = (Ok tt,
     Handler (path self) (request_version self) []
             (wfile self ++ _headers_buffer self ++ cors_lines ++
              (if endswith target ".js" then [javascript_line] else []))
             true (body self)).
Proof.
  intros Hp Hv. destruct self as [p v b w d bd]. cbn in Hp, Hv. subst p.
  unfold end_headers, cors_lines, javascript_line.
  unfold send_header, base_end_headers, buffer_line; simpl.
  repeat (rewrite Hv; simpl).
  destruct (endswith target ".js"); simpl; repeat (rewrite Hv; simpl);
    rewrite <- ?app_assoc; simpl; rewrite ?app_nil_r; reflexivity.
Qed.


(** A reply with the path set and a version other than HTTP/0.9: the head
    of the library, the three CORS lines and the JavaScript content type for
    a path ending in [.js] are written, then the body. *)
Lemma send_reply_eq (r : reply) (target version : string) :
  String.eqb version "HTTP/0.9" = false ->
  send_reply r (new_handler (Some target) version)
  = (Ok tt,
     Handler (Some target) version []
             (library_head r ++ cors_lines ++
              (if endswith target ".js" then [javascript_line] else []))
             true (snd r)).
Proof.
  intros Hv. destruct r as [[code hs] data].
  unfold send_reply.
  rewrite send_response_live by exact Hv.
  rewrite send_headers_fold by exact Hv.
  rewrite (end_headers_live _ target) by (try reflexivity; exact Hv).
  unfold wfile_write, new_handler, library_head.
  cbn [path request_version _headers_buffer wfile headers_done body fst snd app].
  reflexivity.
Qed.



(** The response to a request that reaches a reply with its path set. *)
Lemma response_eq (raw target version : string) (r : reply) :
  replies raw target version r ->
  String.eqb version "HTTP/0.9" = false ->
  handle_one_request raw
  = (Ok tt,
     Handler (Some target) version []
             (library_head r ++ cors_lines ++
              (if endswith target ".js" then [javascript_line] else []))
             true (snd r)).
Proof.
  intros [(Hp & ->)|[(c & Hp & Hc & Hb)|(c & Hp)]] Hv; unfold handle_one_request; rewrite Hp.
  - cbn [String.eqb Ascii.eqb Bool.eqb]. unfold do_OPTIONS.
    rewrite send_response_live by exact Hv.
    rewrite (end_headers_live _ target) by (try reflexivity; exact Hv).
    reflexivity.
  - rewrite Hc, Hb. now apply send_reply_eq.
  - now apply send_reply_eq.
Qed.


Lemma flat_map_header_lines (hs : list header) :
  flat_map (fun l => match l with
                     | HeaderLine k v => [(k, v)]
                     | StatusLine _ => []
                     end)
           (map (fun kv => HeaderLine (fst kv) (snd kv)) hs)
  = hs.
Proof.
  induction hs as [|[k v] hs IH]; simpl; [reflexivity|now rewrite IH].
Qed.

(** The header lines of such a response. *)
Lemma sent_headers_reply (r : reply) (tail : list line) (p : option string)
      (v : string) (b : list line) (d : bool) (bd : list Byte.byte) :
  sent_headers (Handler p v b (library_head r ++ tail) d bd)
  = ("Server", version_string) :: ("Date", date_time_string) ::
    snd (fst r) ++
    flat_map (fun l => match l with
                       | HeaderLine k v => [(k, v)]
                       | StatusLine _ => []
                       end) tail.
Proof.
  unfold sent_headers. cbn [wfile]. rewrite flat_map_app. unfold library_head.
  cbn [flat_map app]. now rewrite flat_map_header_lines.
Qed.






End Handler.







(** ** Port scan *)

Section PortScan.
Context {osm : OSModel}.

Import Server.

(** The probe creates a socket, whose failure nothing catches, then turns
    the outcome of the bind into a boolean, and lets through whatever is not
    an [OSError]. *)
Lemma check_port_available_run (port : Z) (w : world) :
  check_port_available port w
  = (match socket_socket (os w) with
     | Raise e => Raise e
     | Ok _ =>
         match socket_bind (os w) port with
         | Ok _ => Ok true
         | Raise e => if is_OSError e then Ok false else Raise e
         end
     end,
     World (os w) (log w ++ [Probe port])).
Proof.
  unfold check_port_available, try_except, bind, observe, peek, ret. simpl.
  destruct (socket_socket (os w)) as [u|e]; [|reflexivity].
  destruct (socket_bind (os w) port) as [u'|e]; [reflexivity|].
  destruct (is_OSError e); reflexivity.
Qed.

(** A passing bind was made on a socket that could be created. *)
Lemma probe_passes_socket (o : OS) (port : Z) :
  probe_passes o port -> socket_socket o = Ok tt.
Proof.
  unfold probe_passes. intros H.
  destruct (socket_socket o) as [[]|e] eqn:E; [reflexivity|].
  rewrite (socket_bind_fresh o port e E) in H. discriminate H.
Qed.

Lemma check_port_available_passes (port : Z) (w : world) :
  probe_passes (os w) port ->
  check_port_available port w = (Ok true, World (os w) (log w ++ [Probe port])).
Proof.
  intros H. rewrite check_port_available_run.
  rewrite (probe_passes_socket _ _ H). unfold probe_passes in H. now rewrite H.
Qed.

Lemma check_port_available_fails (port : Z) (w : world) :
  probe_fails (os w) port ->
  check_port_available port w = (Ok false, World (os w) (log w ++ [Probe port])).
Proof.
  intros (Hs & e & H & He). rewrite check_port_available_run.
  now rewrite Hs, H, He.
Qed.

(** A run of the loop over the offsets [a, a+1, ...]: it probes [k] ports in
    order, all but the last of them failing, and the last probe decides the
    outcome. An exception is one of the bind that is not an [OSError], or the
    one of the creation of the socket. *)
Lemma find_available_port_loop_run (P : Z) (m a : nat) (w : world) :
  exists k : nat,
    (k <= m)%nat /\
    snd (find_available_port_loop P (map Z.of_nat (seq a m)) w)
    = World (os w) (log w ++ map (fun i => Probe (P + Z.of_nat i)) (seq a k)) /\
    (forall j, (a <= j)%nat -> (S j < a + k)%nat -> probe_fails (os w) (P + Z.of_nat j)) /\
    match fst (find_available_port_loop P (map Z.of_nat (seq a m)) w) with
    | Ok (Some q) =>
        (1 <= k)%nat /\ q = P + Z.of_nat (a + k - 1) /\ probe_passes (os w) q
    | Ok None =>
        k = m /\ forall j, (a <= j < a + m)%nat -> probe_fails (os w) (P + Z.of_nat j)
    | Raise e =>
        (1 <= k)%nat /\ socket_bind (os w) (P + Z.of_nat (a + k - 1)) = Raise e /\
        (is_OSError e = false \/ socket_socket (os w) = Raise e)
    end.
Proof.
  revert a w; induction m as [|m IH]; intros a w.
  - exists 0%nat. simpl. rewrite app_nil_r. repeat split; try lia.
    now destruct w.
  - cbn [seq map find_available_port_loop]. unfold bind.
    rewrite check_port_available_run.
    destruct (socket_socket (os w)) as [[]|e] eqn:Es.
    + destruct (socket_bind (os w) (P + Z.of_nat a)) as [u|e] eqn:E.
      * exists 1%nat. cbn [fst snd seq map].
        split; [lia|]. split; [reflexivity|]. split; [intros; lia|].
        split; [lia|]. replace (a + 1 - 1)%nat with a by lia.
        split; [reflexivity|]. unfold probe_passes. rewrite E. now destruct u.
      * destruct (is_OSError e) eqn:Ee.
        -- destruct (IH (S a) (World (os w) (log w ++ [Probe (P + Z.of_nat a)])))
             as (k & Hk & Hlog & Hfail & Hres).
           exists (S k). simpl in *. split; [lia|]. split; [|split].
           ++ rewrite Hlog. now rewrite <- app_assoc.
           ++ intros j Hj1 Hj2. destruct (Nat.eq_dec j a) as [->|Hne].
              ** split; [exact Es|]. exists e. auto.
              ** apply Hfail; lia.
           ++ destruct (fst (find_available_port_loop P (map Z.of_nat (seq (S a) m)) _))
                as [[q|]|e'].
              ** destruct Hres as (H1 & H2 & H3).
                 split; [lia|]. split; [|exact H3].
                 rewrite H2. f_equal. f_equal. lia.
              ** destruct Hres as (H1 & H2). split; [lia|].
                 intros j Hj. destruct (Nat.eq_dec j a) as [->|Hne].
                 --- split; [exact Es|]. exists e. auto.
                 --- apply H2. lia.
              ** destruct Hres as (H1 & H2 & H3). rewrite Es in H3.
                 split; [lia|]. split; [|exact H3].
                 rewrite <- H2. f_equal. f_equal. f_equal. lia.
        -- exists 1%nat. cbn [fst snd seq map].
           split; [lia|]. split; [reflexivity|]. split; [intros; lia|].
           split; [lia|]. replace (a + 1 - 1)%nat with a by lia. auto.
    + exists 1%nat. cbn [fst snd seq map].
      split; [lia|]. split; [reflexivity|]. split; [intros; lia|].
      split; [lia|]. replace (a + 1 - 1)%nat with a by lia.
      split; [|now right]. now apply socket_bind_fresh.
Qed.

(** The same for [find_available_port], with the count of probes as a number
    between 0 and [max_attempts]. *)
Lemma find_available_port_run (P n : Z) (w : world) :
  exists k : Z,
    0 <= k <= Z.max 0 n /\
    snd (find_available_port P n w)
    = World (os w) (log w ++ map (fun i => Probe (P + i)) (range k)) /\
    (forall r, P <= r < P + k - 1 -> probe_fails (os w) r) /\
    match fst (find_available_port P n w) with
    | Ok (Some q) => 1 <= k /\ q = P + k - 1 /\ probe_passes (os w) q
    | Ok None => k = Z.max 0 n /\ forall r, P <= r < P + n -> probe_fails (os w) r
    | Raise e =>
        1 <= k /\ socket_bind (os w) (P + k - 1) = Raise e /\
        (is_OSError e = false \/ socket_socket (os w) = Raise e)
    end.
Proof.
  unfold find_available_port, range.
  destruct (find_available_port_loop_run P (Z.to_nat n) 0 w) as (k & Hk & Hlog & Hfail & Hres).
  exists (Z.of_nat k). split; [lia|]. split; [|split].
  - rewrite Hlog. rewrite Nat2Z.id, map_map. reflexivity.
  - intros r Hr. replace r with (P + Z.of_nat (Z.to_nat (r - P))) by lia.
    apply Hfail; lia.
  - destruct (fst (find_available_port_loop P (map Z.of_nat (seq 0 (Z.to_nat n))) w))
      as [[q|]|e].
    + destruct Hres as (H1 & H2 & H3).
      split; [lia|]. split; [lia|exact H3].
    + destruct Hres as (H1 & H2). split; [lia|].
      intros r Hr. replace r with (P + Z.of_nat (Z.to_nat (r - P))) by lia.
      apply H2. lia.
    + destruct Hres as (H1 & H2 & H3).
      split; [lia|]. split; [|exact H3].
      rewrite <- H2. f_equal. lia.
Qed.

(** The loop stops at the first offset whose port passes the probe, when
    those before it fail; it only observes the platform. *)
Lemma find_available_port_loop_finds (P : Z) (k a i : nat) (w : world) :
  (a <= i < a + k)%nat ->
  probe_passes (os w) (P + Z.of_nat i) ->
  (forall j, (a <= j < i)%nat -> probe_fails (os w) (P + Z.of_nat j)) ->
  exists probes,
    find_available_port_loop P (map Z.of_nat (seq a k)) w
    = (Ok (Some (P + Z.of_nat i)), World (os w) (log w ++ probes)).
Proof.
  revert a w; induction k as [|k IH]; intros a w Hi Hp Hf; [lia|].
  simpl. unfold bind.
  destruct (Nat.eq_dec a i) as [->|Hne].
  - rewrite check_port_available_passes by assumption.
    exists [Probe (P + Z.of_nat i)]. reflexivity.
  - rewrite check_port_available_fails by (apply Hf; lia).
    destruct (IH (S a) (World (os w) (log w ++ [Probe (P + Z.of_nat a)])))
      as (probes & E); simpl; try assumption; try lia.
    + intros j Hj. apply Hf. lia.
    + rewrite E. exists (Probe (P + Z.of_nat a) :: probes). simpl.
      now rewrite <- app_assoc.
Qed.

Lemma find_available_port_loop_exhausts (P : Z) (k a : nat) (w : world) :
  (forall j, (a <= j < a + k)%nat -> probe_fails (os w) (P + Z.of_nat j)) ->
  exists probes,
    find_available_port_loop P (map Z.of_nat (seq a k)) w
    = (Ok None, World (os w) (log w ++ probes)).
Proof.
  revert a w; induction k as [|k IH]; intros a w Hf; simpl.
  - exists []. unfold ret. rewrite app_nil_r. now destruct w.
  - unfold bind. rewrite check_port_available_fails by (apply Hf; lia).
    destruct (IH (S a) (World (os w) (log w ++ [Probe (P + Z.of_nat a)])))
      as (probes & E); simpl.
    + intros j Hj. apply Hf. lia.
    + rewrite E. exists (Probe (P + Z.of_nat a) :: probes). simpl.
      now rewrite <- app_assoc.
Qed.

Lemma find_available_port_some (P q : Z) (w : world) :
  first_free (os w) P q ->
  exists probes,
    find_available_port P max_attempts_default w
    = (Ok (Some q), World (os w) (log w ++ probes)).
Proof.
  intros (Hr & Hp & Hf).
  unfold find_available_port, range, max_attempts_default.
  replace q with (P + Z.of_nat (Z.to_nat (q - P))) in * by lia.
  apply find_available_port_loop_finds.
  - change (Z.to_nat 10) with 10%nat. lia.
  - assumption.
  - intros j Hj. apply Hf. lia.
Qed.

Lemma find_available_port_none (P : Z) (w : world) :
  none_free (os w) P ->
  exists probes,
    find_available_port P max_attempts_default w
    = (Ok None, World (os w) (log w ++ probes)).
Proof.
  intros Hf.
  unfold find_available_port, range, max_attempts_default.
  apply find_available_port_loop_exhausts.
  intros j Hj. apply Hf. change (Z.to_nat 10) with 10%nat in Hj. lia.
Qed.

(** An exception of the bind that is not an [OSError] ends the scan, when
    the ports before it fail. *)
Lemma find_available_port_raises (P n r : Z) (e : exn) (w : world) :
  P <= r < P + n ->
  (forall r', P <= r' < r -> probe_fails (os w) r') ->
  socket_bind (os w) r = Raise e ->
  is_OSError e = false ->
  fst (find_available_port P n w) = Raise e.
Proof.
  intros Hr Hbefore Hraise He.
  assert (Hnot : ~ probe_fails (os w) r).
  { intros (_ & e' & H1 & H2). rewrite Hraise in H1. injection H1 as <-. congruence. }
  destruct (find_available_port_run P n w) as (k & Hk & Hlog & Hfail & Hres).
  destruct (fst (find_available_port P n w)) as [[q|]|e'].
  - exfalso. destruct Hres as (H1 & -> & H3).
    destruct (Z.lt_trichotomy (P + k - 1) r) as [Hlt|[Heq|Hgt]].
    + destruct (Hbefore (P + k - 1)) as (_ & e' & H4 & _); [lia|].
      unfold probe_passes in H3. congruence.
    + subst r. unfold probe_passes in H3. congruence.
    + apply Hnot, Hfail. lia.
  - exfalso. destruct Hres as (_ & H). apply Hnot, H. lia.
  - destruct Hres as (H1 & H2 & H3).
    destruct (Z.lt_trichotomy (P + k - 1) r) as [Hlt|[Heq|Hgt]].
    + exfalso. destruct (Hbefore (P + k - 1)) as (Hs & e'' & H4 & H5); [lia|].
      rewrite H2 in H4. injection H4 as <-.
      destruct H3 as [H3|H3]; congruence.
    + rewrite Heq in H2. rewrite Hraise in H2. now injection H2 as <-.
    + exfalso. apply Hnot, Hfail. lia.
Qed.

(** C4, as the code has it. For every start port [P] and every state of the
    ports, [find_available_port(P)] returns the first port of [P..P+9] that
    passes the bind probe, those before it failing it with [OSError], and
    [None] when all ten fail it so; it leaves the platform as it was. In
    particular, when the ten ports are all occupied except [P+7], it returns
    [P+7]. An exception of the bind that is not an [OSError] is not a failed
    probe: it ends the scan and is raised. *)
Theorem find_available_port_first (P : Z) (w : world) :
  (forall q, first_free (os w) P q ->
     exists probes,
       find_available_port P max_attempts_default w
       = (Ok (Some q), World (os w) (log w ++ probes))) /\
  (none_free (os w) P ->
     exists probes,
       find_available_port P max_attempts_default w
       = (Ok None, World (os w) (log w ++ probes))) /\
  (probe_passes (os w) (P + 7) ->
   (forall r, P <= r <= P + 9 -> r <> P + 7 -> probe_fails (os w) r) ->
   fst (find_available_port P max_attempts_default w) = Ok (Some (P + 7))) /\
  (forall r e,
     P <= r <= P + 9 ->
     (forall r', P <= r' < r -> probe_fails (os w) r') ->
     socket_bind (os w) r = Raise e ->
     is_OSError e = false ->
     fst (find_available_port P max_attempts_default w) = Raise e).
Proof.
  split; [|split; [|split]].
  - intros q. apply find_available_port_some.
  - apply find_available_port_none.
  - intros Hp Hf.
    destruct (find_available_port_some P (P + 7) w) as (probes & E).
    + split; [lia|]. split; [exact Hp|]. intros r Hr. apply Hf; lia.
    + now rewrite E.
  - intros r e Hr Hbefore Hraise He.
    apply (find_available_port_raises P max_attempts_default r e w); auto.
    unfold max_attempts_default. lia.
Qed.

End PortScan.

Lemma find_available_port_first_witness :
  fst (Server.find_available_port (osm := Machine.machine_os) 8080
         Server.max_attempts_default (Machine.boot Machine.crowded))
  = Ok (Some 8087).
Proof.
  apply (find_available_port_first (osm := Machine.machine_os) 8080 (Machine.boot Machine.crowded)).
  - reflexivity.
  - intros r Hr Hne. split; [reflexivity|]. exists OSError. split; [|reflexivity].
    assert (r = 8080 \/ r = 8081 \/ r = 8082 \/ r = 8083 \/ r = 8084 \/ r = 8085
            \/ r = 8086 \/ r = 8088 \/ r = 8089) as Hc by lia.
    repeat (destruct Hc as [->|Hc]; [reflexivity|]). subst; reflexivity.
Defined.

(** C4 as stated ([None] whenever none of the ten ports passes the probe)
    fails at the top of the port range: from 65530 with 65530..65535 taken,
    the bind of 65536 raises [OverflowError], which [except OSError] does not
    catch; none of the ten ports passes the probe and the scan raises. *)
Lemma find_available_port_first_counterexample :
  forallb (fun i => match socket_bind (OSModel := Machine.machine_os)
                            Scenes.topmost (65530 + i) with
                    | Ok _ => false
                    | Raise _ => true
                    end) (range 10) = true /\
  fst (Server.find_available_port (osm := Machine.machine_os) 65530
         Server.max_attempts_default (Machine.boot Scenes.topmost))
  = Raise OverflowError /\
  fst (Server.find_available_port (osm := Machine.machine_os) 65530
         Server.max_attempts_default (Machine.boot Scenes.topmost))
  <> Ok None.
Proof.
  split; [reflexivity|]. split; [reflexivity|].
  vm_compute. discriminate.
Qed.

(** ** Process discovery and the commands of the manager *)

Section Discovery.
Context {osm : OSModel}.

Import Manager.

(** Discovery runs the lookup once and does nothing else; its answer is
    decided by what the lookup printed. *)
Lemma get_server_pid_run (port : Z) (w : world) :
  get_server_pid port w
  = (match subprocess_run (os w) (lookup_argv port) with
     | Ok out =>
         if String.eqb (strip out) "" then Ok None
         else match int (strip out) with
              | Ok pid => Ok (Some pid)
              | Raise _ => Ok None
              end
     | Raise e => if is_Exception e then Ok None else Raise e
     end,
     World (os w) (log w ++ [Run (lookup_argv port)])).
Proof.
  unfold get_server_pid, bind, try_except, run, observe, lookup_argv. simpl.
  destruct (subprocess_run (os w) _) as [out|e]; simpl.
  - destruct (String.eqb (strip out) ""); simpl; [reflexivity|].
    destruct (int (strip out)) as [pid|e] eqn:E; simpl; [reflexivity|].
    unfold raise. apply int_raises in E. subst e. reflexivity.
  - destruct (is_Exception e); reflexivity.
Qed.

Lemma get_server_pid_world (port : Z) (w : world) :
  snd (get_server_pid port w) = World (os w) (log w ++ [Run (lookup_argv port)]).
Proof. now rewrite get_server_pid_run. Qed.

Lemma get_server_pid_os (port : Z) (w1 w2 : world) :
  os w1 = os w2 -> fst (get_server_pid port w1) = fst (get_server_pid port w2).
Proof. intros E. rewrite !get_server_pid_run. simpl. now rewrite E. Qed.

(** C6, as the code has it. Discovery parses the whole output of the lookup
    utility, trimmed of surrounding white space, as one integer: the answer
    is that integer when the trimmed output is an integer literal (digits,
    with an optional sign), whatever white space surrounds it, and [None]
    when the utility prints nothing, cannot be run, or prints anything that
    is not one integer; only an exception outside [Exception] is raised. It
    runs the lookup once and never changes the platform. *)
Theorem get_server_pid_discovery (port : Z) (w : world) :
  (forall pid, 0 <= pid < 2 ^ 64 ->
     subprocess_run (os w) (lookup_argv port) = Ok (str pid ++ nl) ->
     fst (get_server_pid port w) = Ok (Some pid)) /\
  (forall out, subprocess_run (os w) (lookup_argv port) = Ok out ->
     strip out = "" ->
     fst (get_server_pid port w) = Ok None) /\
  (forall e, subprocess_run (os w) (lookup_argv port) = Raise e ->
     is_Exception e = true ->
     fst (get_server_pid port w) = Ok None) /\
  (forall out e, subprocess_run (os w) (lookup_argv port) = Ok out ->
     int (strip out) = Raise e ->
     fst (get_server_pid port w) = Ok None) /\
  os (snd (get_server_pid port w)) = os w /\
  (forall out, subprocess_run (os w) (lookup_argv port) = Ok out ->
     fst (get_server_pid port w)
     = Ok (if String.eqb (strip out) "" then None
           else match int (strip out) with
                | Ok pid => Some pid
                | Raise _ => None
                end)) /\
  (forall pid a b, 0 <= pid -> lstrip a = "" -> rstrip b = "" ->
     subprocess_run (os w) (lookup_argv port) = Ok (a ++ str pid ++ b) ->
     fst (get_server_pid port w) = Ok (Some pid)) /\
  (forall pid a b, 0 <= pid -> lstrip a = "" -> rstrip b = "" ->
     subprocess_run (os w) (lookup_argv port) = Ok (a ++ "+" ++ str pid ++ b) ->
     fst (get_server_pid port w) = Ok (Some pid)) /\
  (forall pid a b, 0 <= pid -> lstrip a = "" -> rstrip b = "" ->
     subprocess_run (os w) (lookup_argv port) = Ok (a ++ "-" ++ str pid ++ b) ->
     fst (get_server_pid port w) = Ok (Some (- pid))) /\
  (forall e, subprocess_run (os w) (lookup_argv port) = Raise e ->
     is_Exception e = false ->
     fst (get_server_pid port w) = Raise e) /\
  snd (get_server_pid port w) = World (os w) (log w ++ [Run (lookup_argv port)]).
Proof.
  rewrite get_server_pid_run. simpl.
  repeat split.
  - intros pid Hpid ->.
    rewrite strip_str by (try reflexivity; lia).
    rewrite str_nonempty by lia.
    pose proof (int_str pid "" (proj1 Hpid) eq_refl) as E.
    rewrite append_empty_r in E.
    now rewrite E.
  - intros out -> ->. reflexivity.
  - intros e -> ->. reflexivity.
  - intros out e -> ->. now destruct (String.eqb (strip out) "").
  - intros out ->. destruct (String.eqb (strip out) ""); [reflexivity|].
    now destruct (int (strip out)).
  - intros pid a b Hpid Ha Hb ->.
    rewrite strip_padded_str by assumption.
    rewrite str_nonempty by assumption.
    pose proof (int_str pid "" Hpid eq_refl) as E.
    rewrite append_empty_r in E.
    now rewrite E.
  - intros pid a b Hpid Ha Hb ->.
    change ("+" ++ str pid ++ b)%string with (String "+" (str pid ++ b)).
    rewrite strip_padded_signed by (assumption || reflexivity).
    change (String.eqb (String "+" (str pid)) "") with false. cbv iota.
    now rewrite int_plus_str.
  - intros pid a b Hpid Ha Hb ->.
    change ("-" ++ str pid ++ b)%string with (String "-" (str pid ++ b)).
    rewrite strip_padded_signed by (assumption || reflexivity).
    change (String.eqb (String "-" (str pid)) "") with false. cbv iota.
    now rewrite int_minus_str.
  - intros e -> ->. reflexivity.
Qed.

(** C7. When [start] finds a process owning the port it refuses: it runs
    the lookup, prints the already-running message and the advice to use
    [restart], and returns [False]. No process is launched, the platform is
    left as it was, and discovery afterwards still finds the same process. *)
Theorem start_server_already_running (w : world) (pid : Z) :
  fst (get_server_pid PORT w) = Ok (Some pid) ->
  let added := [Run (lookup_argv PORT);
                Print "❌ Server is already running on port 8080";
                Print "Use './manage_server.py restart' to restart it"] in
  start_server w = (Ok false, World (os w) (log w ++ added)) /\
  (forall argv, ~ In (Popen argv) added) /\
  os (snd (start_server w)) = os w /\
  fst (get_server_pid PORT (snd (start_server w))) = Ok (Some pid).
Proof.
  intros H added.
  assert (E : start_server w = (Ok false, World (os w) (log w ++ added))).
  { unfold start_server, is_server_running, bind.
    rewrite (surjective_pairing (get_server_pid PORT w)), H, get_server_pid_world.
    unfold print, emit, ret. simpl. rewrite <- !app_assoc. reflexivity. }
  rewrite E. simpl. repeat split.
  - intros argv [F|[F|[F|[]]]]; discriminate F.
  - rewrite <- H. now apply get_server_pid_os.
Qed.

(** C8. When [stop] finds no process owning the port it sends no signal: it
    runs the lookup, prints the not-running message and returns [False]; the
    platform is left as it was, and [status] afterwards reports that the
    server is not running. *)
Theorem stop_server_not_running (w : world) :
  fst (get_server_pid PORT w) = Ok None ->
  let added := [Run (lookup_argv PORT); Print "❌ No server is running"] in
  stop_server w = (Ok false, World (os w) (log w ++ added)) /\
  (forall p, ~ In (Kill p) added) /\
  os (snd (stop_server w)) = os w /\
  status_server (snd (stop_server w))
  = (Ok tt, World (os w) (log w ++ added ++
                          [Run (lookup_argv PORT); Print "❌ Server is not running"])).
Proof.
  intros H added.
  assert (E : stop_server w = (Ok false, World (os w) (log w ++ added))).
  { unfold stop_server, bind.
    rewrite (surjective_pairing (get_server_pid PORT w)), H, get_server_pid_world.
    unfold print, emit, ret. simpl. rewrite <- !app_assoc. reflexivity. }
  rewrite E. simpl. repeat split.
  - intros p [F|[F|[]]]; discriminate F.
  - unfold status_server, bind.
    rewrite (surjective_pairing (get_server_pid PORT _)).
    rewrite (get_server_pid_os PORT (World (os w) (log w ++ added)) w eq_refl).
    rewrite H, get_server_pid_world.
    unfold print, emit. simpl. rewrite <- !app_assoc. reflexivity.
Qed.

End Discovery.

Lemma get_server_pid_discovery_witness :
  fst (Manager.get_server_pid (osm := Machine.machine_os) 8080 (Machine.boot Machine.busy))
  = Ok (Some 4242).
Proof.
  apply (get_server_pid_discovery (osm := Machine.machine_os) 8080 (Machine.boot Machine.busy)).
  - lia.
  - reflexivity.
Defined.

(** C6 as stated (the first identifier printed is taken as the owner) fails
    when the lookup prints more than one identifier: the output is parsed as
    a whole, is not an integer, and discovery reports no process. *)
Lemma first_identifier_counterexample :
  subprocess_run (OSModel := Machine.machine_os) Machine.shared (lookup_argv 8080)
  = Ok ("4242" ++ nl ++ "4243" ++ nl) /\
  fst (Manager.get_server_pid (osm := Machine.machine_os) 8080 (Machine.boot Machine.shared))
  <> Ok (Some 4242) /\
  fst (Manager.get_server_pid (osm := Machine.machine_os) 8080 (Machine.boot Machine.shared))
  = Ok None.
Proof.
  split; [reflexivity|]. split; [|reflexivity].
  vm_compute. discriminate.
Qed.

Lemma start_server_already_running_witness :
  Manager.start_server (osm := Machine.machine_os) (Machine.boot Machine.busy)
  = (Ok false,
     World (osm := Machine.machine_os) Machine.busy
           [Run (lookup_argv 8080);
            Print "❌ Server is already running on port 8080";
            Print "Use './manage_server.py restart' to restart it"]).
Proof.
  apply (start_server_already_running (osm := Machine.machine_os)
           (Machine.boot Machine.busy) 4242).
  reflexivity.
Defined.

Lemma stop_server_not_running_witness :
  Manager.stop_server (osm := Machine.machine_os) (Machine.boot Machine.idle)
  = (Ok false,
     World (osm := Machine.machine_os) Machine.idle [Run (lookup_argv 8080); Print "❌ No server is running"]).
Proof.
  apply (stop_server_not_running (osm := Machine.machine_os) (Machine.boot Machine.idle)).
  reflexivity.
Defined.

(** ** Command dispatch *)

Section Dispatch.
Context {osm : OSModel}.

Import Manager.

(** C10. The command is matched on the lowercased argument: an argument and
    its lowercase form run the same script, so [START], [Stop] and [ReStArT]
    run what [start], [stop] and [restart] run; an argument whose lowercase
    form is one of the four commands runs that command's action, and any
    other argument takes the unknown-command path, which prints the two
    lines and exits with status 1. *)
Theorem main_case_insensitive (prog s : string) (rest : list string) (w : world) :
  main (prog :: s :: rest) w = main (prog :: lower s :: rest) w /\
  main (prog :: s :: rest) w = (chdir_script_directory ;;; dispatch (lower s)) w /\
  (main (prog :: "START" :: rest) w = main (prog :: "start" :: rest) w /\
   main (prog :: "Stop" :: rest) w = main (prog :: "stop" :: rest) w /\
   main (prog :: "ReStArT" :: rest) w = main (prog :: "restart" :: rest) w) /\
  (lower s = "start" ->
   main (prog :: s :: rest) w = (chdir_script_directory ;;; start_server ;;; ret tt) w) /\
  (lower s = "stop" ->
   main (prog :: s :: rest) w = (chdir_script_directory ;;; stop_server ;;; ret tt) w) /\
  (lower s = "restart" ->
   main (prog :: s :: rest) w = (chdir_script_directory ;;; restart_server) w) /\
  (lower s = "status" ->
   main (prog :: s :: rest) w = (chdir_script_directory ;;; status_server) w) /\
  (lower s <> "start" -> lower s <> "stop" ->
   lower s <> "restart" -> lower s <> "status" ->
   main (prog :: s :: rest) w
   = (Raise (SystemExit 1),
      World (os w)
            (log w ++ [Chdir;
                       Print ("Unknown command: " ++ lower s);
                       Print "Available commands: start, stop, restart, status"]))).
Proof.
  split; [|split; [|split]].
  - unfold main. now rewrite lower_idem.
  - reflexivity.
  - repeat split; reflexivity.
  - unfold main. repeat split.
    + intros ->. reflexivity.
    + intros ->. reflexivity.
    + intros ->. reflexivity.
    + intros ->. reflexivity.
    + intros H1 H2 H3 H4.
      apply String.eqb_neq in H1, H2, H3, H4.
      unfold dispatch. rewrite H1, H2, H3, H4.
      unfold bind, chdir_script_directory, print, emit, sys_exit, raise. simpl.
      rewrite <- !app_assoc. reflexivity.
Qed.

End Dispatch.

Lemma main_case_insensitive_witness :
  Manager.main (osm := Machine.machine_os) ["manage_server.py"; "STATUS"] (Machine.boot Machine.busy)
  = (Ok tt,
     World (osm := Machine.machine_os) Machine.busy
           [Chdir; Run (lookup_argv 8080);
            Print "✅ Server is running (PID: 4242)";
            Print "   URL: http://localhost:8080/"])
  /\
  Manager.main (osm := Machine.machine_os) ["manage_server.py"; "Reload"] (Machine.boot Machine.busy)
  = (Raise (SystemExit 1),
     World (osm := Machine.machine_os) Machine.busy
           [Chdir; Print "Unknown command: reload";
            Print "Available commands: start, stop, restart, status"]).
Proof.
  split.
  - rewrite (proj1 (proj2 (proj2 (proj2 (proj2 (proj2 (proj2
              (main_case_insensitive (osm := Machine.machine_os)
                 "manage_server.py" "STATUS" [] (Machine.boot Machine.busy))))))))
            eq_refl).
    reflexivity.
  - apply (main_case_insensitive (osm := Machine.machine_os)
             "manage_server.py" "Reload" [] (Machine.boot Machine.busy));
      discriminate.
Defined.

(** ** Port-conflict resolution *)

Section Conflict.
Context {osm : OSModel}.

Import Server.

(** The scan of option 2: the first free port among the ten after [PORT] is
    announced and used; when there is none the script exits with status 1. *)
Lemma use_alternative_port_found (w : world) (q : Z) :
  first_free (os w) (PORT + 1) q ->
  exists probes,
    use_alternative_port w
    = (Ok q, World (os w)
                   (log w ++ probes ++ [Print ("Using alternative port: " ++ str q)])).
Proof.
  intros H. destruct (find_available_port_some (PORT + 1) q w H) as (probes & E).
  exists probes. unfold use_alternative_port, bind. rewrite E.
  destruct H as (Hr & _). unfold PORT in Hr.
  unfold truthy. destruct (Z.eqb_spec q 0) as [->|_]; [lia|]. simpl.
  unfold print, emit, ret. simpl. now rewrite <- app_assoc.
Qed.

Lemma use_alternative_port_none (w : world) :
  none_free (os w) (PORT + 1) ->
  exists probes,
    use_alternative_port w
    = (Raise (SystemExit 1),
       World (os w) (log w ++ probes ++ [Print "No available ports found. Exiting."])).
Proof.
  intros H. destruct (find_available_port_none (PORT + 1) w H) as (probes & E).
  exists probes. unfold use_alternative_port, bind. rewrite E.
  unfold print, emit, sys_exit, raise. simpl. now rewrite <- app_assoc.
Qed.

(** The termination attempt runs the lookup and, when its output is one
    integer, signals that process: it reports success exactly when the signal
    was delivered, and failure when there is no output, when the output is
    not an integer, or when the lookup or the signal raised. *)
Lemma kill_existing_server_run (port : Z) (w : world) :
  let looked : list event := (log w ++ [Run (lookup_argv port)])%list in
  let failed (e : exn) (l : list event) : result bool * world :=
    (Ok false, World (os w) (l ++ [Print ("Could not kill existing process: " ++ exn_str e)])) in
  kill_existing_server port w
  = match subprocess_run (os w) (lookup_argv port) with
    | Raise e => if is_Exception e then failed e looked else (Raise e, World (os w) looked)
    | Ok out =>
        if String.eqb (strip out) "" then (Ok false, World (os w) looked)
        else match int (strip out) with
             | Raise e => failed e looked
             | Ok pid =>
                 match os_kill (os w) pid with
                 | Raise e =>
                     if is_Exception e then failed e (looked ++ [Kill pid])%list
                     else (Raise e, World (os w) (looked ++ [Kill pid]))
                 | Ok o =>
                     (Ok true,
                      World (time_sleep o 1)
                            (looked ++
                             [Kill pid;
                              Print ("Killed existing server process (PID: " ++ str pid ++ ")");
                              Sleep 1]))
                 end
             end
    end.
Proof.
  cbv zeta.
  unfold kill_existing_server, bind, try_except, run, observe, lookup_argv. simpl.
  destruct (subprocess_run (os w) _) as [out|e]; simpl.
  - destruct (String.eqb (strip out) ""); simpl; [reflexivity|].
    destruct (int (strip out)) as [pid|e] eqn:E; simpl.
    + unfold kill, act, print, emit, sleep, ret. simpl.
      destruct (os_kill (os w) pid) as [o|e]; simpl.
      * rewrite <- !app_assoc. reflexivity.
      * destruct (is_Exception e); simpl; [|reflexivity].
        rewrite <- !app_assoc. reflexivity.
    + unfold raise. apply int_raises in E. subst e. simpl.
      unfold print, emit, ret. simpl. reflexivity.
  - destruct (is_Exception e); simpl; reflexivity.
Qed.

(** The main block up to the operator's answer. *)
Lemma main_until_choice (w : world) (line : string) (o1 : OS) (k : string -> M Z) :
  probe_fails (os w) PORT ->
  stdin_readline (os w) = (Ok line, o1) ->
  (chdir_script_directory ;;;
   free <- check_port_available PORT ;;
   port <- (if negb free then
              print_options ;;;
              line <- input (nl ++ "Enter your choice (1-3): ") ;;
              k line
            else ret PORT) ;;
   serve port) w
  = (port <- k line ;; serve port) (World o1 (log w ++ conflict_prompt)).
Proof.
  intros Hb Hin.
  unfold bind at 1 2. unfold chdir_script_directory, emit.
  rewrite check_port_available_fails by exact Hb. simpl.
  unfold bind, print_options, print, emit, input. simpl. rewrite Hin.
  rewrite <- !app_assoc. reflexivity.
Qed.

(** Option 2 runs the scan. *)
Lemma option_two_scans (w : world) (line : string) (o1 : OS) :
  probe_fails (os w) PORT ->
  stdin_readline (os w) = (Ok line, o1) ->
  strip line = "2" ->
  main w = (port <- use_alternative_port ;; serve port) (World o1 (log w ++ conflict_prompt)).
Proof.
  intros Hb Hin Hs. unfold main, resolve_conflict.
  rewrite (main_until_choice w line o1 _ Hb Hin).
  rewrite Hs. reflexivity.
Qed.

(** C5, as the code has it. When the operator chooses option 1 and
    [kill_existing_server] reports failure (no owner found, or the lookup or
    the signal raised), the script announces it and runs the scan of option
    2: it then serves on the first free port among the ten after [PORT], or
    exits with status 1 when there is none. *)
Theorem kill_failure_falls_back_to_scan
        (w : world) (line : string) (o1 : OS) (w2 : world) :
  probe_fails (os w) PORT ->
  stdin_readline (os w) = (Ok line, o1) ->
  strip line = "1" ->
  kill_existing_server PORT (World o1 (log w ++ conflict_prompt)) = (Ok false, w2) ->
  let w3 := World (os w2)
              (log w2 ++ [Print "Failed to kill existing server. Trying alternative port..."]) in
  main w = (port <- use_alternative_port ;; serve port) w3 /\
  (forall q, first_free (os w2) (PORT + 1) q ->
     exists probes,
       main w = serve q (World (os w2)
                           (log w3 ++ probes ++
                            [Print ("Using alternative port: " ++ str q)]))) /\
  (none_free (os w2) (PORT + 1) ->
     exists probes,
       main w = (Raise (SystemExit 1),
                 World (os w2)
                       (log w3 ++ probes ++ [Print "No available ports found. Exiting."]))).
Proof.
  intros Hb Hin Hs Hk w3.
  assert (E : main w = (port <- use_alternative_port ;; serve port) w3).
  { unfold main, resolve_conflict.
    rewrite (main_until_choice w line o1 _ Hb Hin).
    rewrite Hs. simpl.
    unfold bind at 1 2 3. rewrite Hk. reflexivity. }
  split; [exact E|]. split.
  - intros q Hq. destruct (use_alternative_port_found w3 q Hq) as (probes & Hu).
    exists probes. rewrite E. unfold bind. rewrite Hu. reflexivity.
  - intros Hn. destruct (use_alternative_port_none w3 Hn) as (probes & Hu).
    exists probes. rewrite E. unfold bind. rewrite Hu. reflexivity.
Qed.

End Conflict.

Lemma kill_failure_falls_back_to_scan_witness :
  fst (Server.main (osm := Machine.machine_os) (Machine.boot Machine.unkillable)) = Ok tt /\
  In (Listen 8081) (log (snd (Server.main (osm := Machine.machine_os) (Machine.boot Machine.unkillable)))).
Proof.
  destruct (kill_failure_falls_back_to_scan (osm := Machine.machine_os)
              (Machine.boot Machine.unkillable) "1"
              (Machine.Mk [(8080, 4242); (8080, 4243)] true [] [] 5000)
              (World (osm := Machine.machine_os)
                 (Machine.Mk [(8080, 4242); (8080, 4243)] true [] [] 5000)
                 (conflict_prompt ++
                  [Run ["lsof"; "-ti"; ":8080"];
                   Print "Could not kill existing process: error"]))
              (conj eq_refl (ex_intro _ OSError (conj eq_refl eq_refl)))
              eq_refl eq_refl eq_refl) as (E & _).
  rewrite E. split; [reflexivity|].
  vm_compute. auto 20.
Defined.

(** C5 as stated (fallback whenever the termination attempt leaves the port
    occupied) fails when the signal is delivered but the port is not
    released: [kill_existing_server] returns [True], the port is still
    occupied, and the script neither scans nor avoids port 8080. *)
Lemma termination_without_release_counterexample :
  let w := Machine.boot Machine.stubborn in
  let asked :=
    World (osm := Machine.machine_os)
          (Machine.Mk [(8080, 4242)] true [4242] [] 5000) conflict_prompt in
  probe_fails (osm := Machine.machine_os) (os w) Server.PORT /\
  stdin_readline (OSModel := Machine.machine_os) (os w) = (Ok "1", os asked) /\
  fst (Server.kill_existing_server Server.PORT asked) = Ok true /\
  probe_fails (osm := Machine.machine_os)
    (os (snd (Server.kill_existing_server Server.PORT asked))) Server.PORT /\
  ~ In (Probe (Server.PORT + 1)) (log (snd (Server.main w))) /\
  In (Listen Server.PORT) (log (snd (Server.main w))) /\
  fst (Server.main w) = Raise (SystemExit 1).
Proof.
  cbv zeta.
  split; [split; [reflexivity | exists OSError; split; reflexivity]|].
  split; [reflexivity|]. split; [reflexivity|].
  split; [split; [reflexivity | exists OSError; split; reflexivity]|].
  repeat split.
  - intros Hscan. vm_compute in Hscan.
    repeat (destruct Hscan as [Hscan|Hscan]; [discriminate Hscan|]). exact Hscan.
  - vm_compute. auto 20.
Qed.

(** ** The favicon generator *)

Section FaviconFacts.

Import Favicon.

(** The placeholder of the fallback: 14 header bytes, then 1000 zero bytes. *)
Lemma placeholder_layout :
  List.length placeholder_header = 14%nat /\
  placeholder_padding = repeat Byte.x00 1000 /\
  List.length (placeholder_header ++ placeholder_padding)%list = 1014%nat.
Proof.
  repeat split.
Qed.

(** The [except ImportError] block, when it runs, writes the placeholder and
    ends normally. *)
Lemma fallback_writes_placeholder (s : state) :
  fallback s
  = (Ok tt,
     State (files s ++ [("favicon.ico", (placeholder_header ++ placeholder_padding)%list)])
           (stdout s ++
            ["Pillow library not installed. Creating a simple text file as placeholder.";
             "Created placeholder favicon.ico";
             "To create a proper favicon, install Pillow: pip install Pillow"])%list).
Proof.
  unfold fallback, fseq, fprint, write_placeholder. simpl.
  rewrite <- !app_assoc. reflexivity.
Qed.

(** The block is reached when the library is installed and an import made
    while rendering fails. *)
Lemma main_block_fallback (s : state) :
  main_block (Env true (Raise ImportError)) s = fallback s.
Proof. reflexivity. Qed.

(** C9 on the code. The guarded block alone would turn a failed import into
    the placeholder, but when the imaging library is not installed the
    import at the top of the script raises before that block is reached: the
    exception propagates, no file is written and nothing is printed. *)
Theorem missing_library_propagates
        (r : result (list (string * list Byte.byte))) (s : state) :
  main_block (Env false r) s = fallback s /\
  script (Env false r) s = (Raise ModuleNotFoundError, s) /\
  script (Env false r) s <> fallback s.
Proof.
  split; [reflexivity|]. split; [reflexivity|].
  rewrite fallback_writes_placeholder.
  unfold script, fseq, import_PIL. simpl.
  discriminate.
Qed.

End FaviconFacts.

(** * Further properties of the scripts *)

(** ** The port scan on any platform *)

Section PortScanFacts.
Context {osm : OSModel}.

Import Server.

(** X1. Whatever the platform and the number of attempts, the result of
    [find_available_port] can be trusted: a port it returns lies in the
    scanned range, passed the probe, and every port before it failed; [None]
    means that every port of the range failed. An exception comes from the
    probe of a port of the range after all earlier ports failed: it is
    either the exception of the creation of the socket, of any class since
    the creation stands outside the [try], and then at the first port; or an
    exception of the bind that is not an [OSError]. The platform is left as
    it was. When the socket cannot be created and there is a port to probe,
    the scan raises the exception of the creation, an [OSError] included. *)
Theorem find_available_port_sound (P n : Z) (w : world) :
  os (snd (find_available_port P n w)) = os w /\
  match fst (find_available_port P n w) with
  | Ok (Some q) =>
      P <= q < P + n /\ probe_passes (os w) q /\
      forall r, P <= r < q -> probe_fails (os w) r
  | Ok None => forall r, P <= r < P + n -> probe_fails (os w) r
  | Raise e =>
      exists r, P <= r < P + n /\
                (forall r', P <= r' < r -> probe_fails (os w) r') /\
                (socket_socket (os w) = Raise e /\ r = P \/
                 socket_socket (os w) = Ok tt /\ socket_bind (os w) r = Raise e /\
                 is_OSError e = false)
  end /\
  (forall e, socket_socket (os w) = Raise e -> 0 < n ->
     find_available_port P n w = (Raise e, World (os w) (log w ++ [Probe P]))).
Proof.
  destruct (find_available_port_run P n w) as (k & Hk & Hlog & Hfail & Hres).
  split; [now rewrite Hlog|]. split.
  - destruct (fst (find_available_port P n w)) as [[q|]|e].
    + destruct Hres as (H1 & -> & H3). split; [lia|]. split; [exact H3|exact Hfail].
    + apply Hres.
    + destruct Hres as (H1 & H2 & H3).
      exists (P + k - 1). split; [lia|]. split; [exact Hfail|].
      destruct (socket_socket (os w)) as [[]|e'] eqn:Es.
      * right. split; [reflexivity|]. split; [exact H2|].
        destruct H3 as [H3|H3]; [exact H3 | discriminate H3].
      * left. rewrite (socket_bind_fresh _ (P + k - 1) e' Es) in H2.
        injection H2 as ->. split; [reflexivity|].
        destruct (Z.eq_dec k 1) as [->|Hne]; [lia|].
        destruct (Hfail P) as (Hs & _); [lia|]. rewrite Es in Hs. discriminate Hs.
  - intros e Es Hn.
    assert (Hnot : forall r, ~ probe_fails (os w) r).
    { intros r (Hs & _). rewrite Es in Hs. discriminate Hs. }
    rewrite (surjective_pairing (find_available_port P n w)), Hlog.
    destruct (fst (find_available_port P n w)) as [[q|]|e'].
    + exfalso. destruct Hres as (_ & _ & H3).
      apply probe_passes_socket in H3. rewrite Es in H3. discriminate H3.
    + exfalso. destruct Hres as (_ & H). apply (Hnot P), H. lia.
    + destruct Hres as (H1 & H2 & _).
      rewrite (socket_bind_fresh _ (P + k - 1) e Es) in H2. injection H2 as ->.
      destruct (Z.eq_dec k 1) as [->|Hne];
        [unfold range; simpl; now rewrite Z.add_0_r|].
      exfalso. apply (Hnot P), Hfail. lia.
Qed.

(** X2. The scan probes the ports [P, P+1, ...] in order, at most
    [max_attempts] of them and none when [max_attempts] is not positive; it
    stops at the port it returns, and has probed the whole range when it
    returns [None]. *)
Theorem find_available_port_probes (P n : Z) (w : world) :
  exists k : Z,
    0 <= k <= Z.max 0 n /\
    snd (find_available_port P n w)
    = World (os w) (log w ++ map (fun i => Probe (P + i)) (range k)) /\
    match fst (find_available_port P n w) with
    | Ok (Some q) => q = P + k - 1
    | Ok None => k = Z.max 0 n
    | Raise _ => 1 <= k
    end.
Proof.
  destruct (find_available_port_run P n w) as (k & Hk & Hlog & _ & Hres).
  exists k. split; [exact Hk|]. split; [exact Hlog|].
  destruct (fst (find_available_port P n w)) as [[q|]|e]; tauto.
Qed.

(** X3. An exception of the probe that is not an [OSError] is not taken for
    an occupied port: when the ports before [r] fail and the probe of [r]
    raises such an exception, the scan raises it, having probed the ports up
    to [r]. *)
Theorem find_available_port_propagates (P n r : Z) (e : exn) (w : world) :
  P <= r < P + n ->
  (forall r', P <= r' < r -> probe_fails (os w) r') ->
  socket_bind (os w) r = Raise e ->
  is_OSError e = false ->
  find_available_port P n w
  = (Raise e, World (os w) (log w ++ map (fun i => Probe (P + i)) (range (r - P + 1)))).
Proof.
  intros Hr Hbefore Hraise He.
  assert (Hnot : ~ probe_fails (os w) r).
  { intros (_ & e' & H1 & H2). rewrite Hraise in H1. injection H1 as <-. congruence. }
  destruct (find_available_port_run P n w) as (k & Hk & Hlog & Hfail & Hres).
  rewrite (surjective_pairing (find_available_port P n w)), Hlog.
  destruct (fst (find_available_port P n w)) as [[q|]|e'].
  - exfalso. destruct Hres as (H1 & -> & H3).
    destruct (Z.lt_trichotomy (P + k - 1) r) as [Hlt|[Heq|Hgt]].
    + destruct (Hbefore (P + k - 1)) as (_ & e' & H4 & _); [lia|].
      unfold probe_passes in H3. congruence.
    + subst r. unfold probe_passes in H3. congruence.
    + apply Hnot, Hfail. lia.
  - exfalso. destruct Hres as (_ & H). apply Hnot, H. lia.
  - destruct Hres as (H1 & H2 & H3).
    destruct (Z.lt_trichotomy (P + k - 1) r) as [Hlt|[Heq|Hgt]].
    + exfalso. destruct (Hbefore (P + k - 1)) as (Hs & e'' & H4 & H5); [lia|].
      rewrite H2 in H4. injection H4 as <-.
      destruct H3 as [H3|H3]; congruence.
    + rewrite Heq in H2. rewrite Hraise in H2. injection H2 as <-.
      replace (r - P + 1) with k by lia. reflexivity.
    + exfalso. apply Hnot, Hfail. lia.
Qed.

End PortScanFacts.

Lemma find_available_port_sound_witness :
  (probe_passes (osm := Machine.machine_os) Machine.crowded 8087 /\
   forall r, 8080 <= r < 8087 -> probe_fails (osm := Machine.machine_os) Machine.crowded r) /\
  Server.find_available_port (osm := Scenes.starved) 8080 10 (World (osm := Scenes.starved) tt [])
  = (Raise OSError, World (osm := Scenes.starved) tt [Probe 8080]).
Proof.
  split.
  - exact (proj2 (proj1 (proj2 (find_available_port_sound (osm := Machine.machine_os)
                                  8080 10 (Machine.boot Machine.crowded))))).
  - apply (proj2 (proj2 (find_available_port_sound (osm := Scenes.starved)
                           8080 10 (World (osm := Scenes.starved) tt [])))).
    + reflexivity.
    + lia.
Defined.

Lemma find_available_port_propagates_witness :
  Server.find_available_port (osm := Machine.machine_os) 65530 10 (Machine.boot Scenes.topmost)
  = (Raise OverflowError,
     World (osm := Machine.machine_os) Scenes.topmost
           [Probe 65530; Probe 65531; Probe 65532; Probe 65533; Probe 65534;
            Probe 65535; Probe 65536]).
Proof.
  apply (find_available_port_propagates (osm := Machine.machine_os)
           65530 10 65536 OverflowError (Machine.boot Scenes.topmost)).
  - lia.
  - intros r Hr. split; [reflexivity|]. exists OSError. split; [|reflexivity].
    assert (r = 65530 \/ r = 65531 \/ r = 65532 \/ r = 65533 \/ r = 65534 \/ r = 65535)
      as Hc by lia.
    repeat (destruct Hc as [->|Hc]; [reflexivity|]). subst; reflexivity.
  - reflexivity.
  - reflexivity.
Defined.

(** ** The main block of the server *)

Section ServerFlows.
Context {osm : OSModel}.

Import Server.

(** X4. When the start-up probe of [PORT] passes there is no dialogue: the
    script goes straight to serving on [PORT], having only changed directory
    and probed the port. *)
Theorem main_port_free (w : world) :
  probe_passes (os w) PORT ->
  main w = serve PORT (World (os w) (log w ++ [Chdir; Probe PORT])).
Proof.
  intros H. unfold main, bind at 1 2. unfold chdir_script_directory, emit.
  rewrite check_port_available_passes by exact H. simpl.
  unfold bind, ret. rewrite <- app_assoc. reflexivity.
Qed.

(** X5. Choice 3 leaves the script with status 0 after printing [Exiting.]:
    nothing is looked up, signalled, probed or bound. *)
Theorem main_choice_exit (w : world) (line : string) (o1 : OS) :
  probe_fails (os w) PORT ->
  stdin_readline (os w) = (Ok line, o1) ->
  strip line = "3" ->
  main w = (Raise (SystemExit 0),
            World o1 (log w ++ conflict_prompt ++ [Print "Exiting."])).
Proof.
  intros Hb Hin Hs. unfold main, resolve_conflict.
  rewrite (main_until_choice w line o1 _ Hb Hin).
  rewrite Hs. unfold bind, print, emit, sys_exit, raise. simpl.
  rewrite <- app_assoc. reflexivity.
Qed.

(** X6. An answer that is none of 1, 2 and 3 is not asked again and not
    refused: the script goes on to serve on [PORT], the port whose probe has
    just failed. *)
Theorem main_choice_unrecognised (w : world) (line : string) (o1 : OS) :
  probe_fails (os w) PORT ->
  stdin_readline (os w) = (Ok line, o1) ->
  strip line <> "1" -> strip line <> "2" -> strip line <> "3" ->
  main w = serve PORT (World o1 (log w ++ conflict_prompt)).
Proof.
  intros Hb Hin H1 H2 H3. unfold main, resolve_conflict.
  rewrite (main_until_choice w line o1 _ Hb Hin).
  apply String.eqb_neq in H1, H2, H3.
  cbv zeta. rewrite H1. unfold bind at 1 2. unfold ret at 1.
  rewrite H2, H3. reflexivity.
Qed.

(** X7. After choice 1, when [kill_existing_server] reports success the
    script announces it and serves on [PORT] without probing the port
    again. *)
Theorem main_choice_kill_succeeds (w : world) (line : string) (o1 : OS) (w2 : world) :
  probe_fails (os w) PORT ->
  stdin_readline (os w) = (Ok line, o1) ->
  strip line = "1" ->
  kill_existing_server PORT (World o1 (log w ++ conflict_prompt)) = (Ok true, w2) ->
  main w = serve PORT (World (os w2)
                         (log w2 ++ [Print "Existing server killed successfully."])).
Proof.
  intros Hb Hin Hs Hk. unfold main, resolve_conflict.
  rewrite (main_until_choice w line o1 _ Hb Hin).
  rewrite Hs. simpl. unfold bind at 1 2 3. rewrite Hk. reflexivity.
Qed.

(** The scan logs one probe for each port from [P] to the one it returns,
    and ten when it returns [None]. *)
Lemma find_available_port_some_log (P q : Z) (w : world) :
  first_free (os w) P q ->
  find_available_port P max_attempts_default w
  = (Ok (Some q),
     World (os w) (log w ++ map (fun i => Probe (P + i)) (range (q - P + 1)))).
Proof.
  intros H. destruct (find_available_port_some P q w H) as (probes & E).
  destruct (find_available_port_run P max_attempts_default w)
    as (k & Hk & Hlog & _ & Hres).
  rewrite (surjective_pairing (find_available_port P max_attempts_default w)), Hlog.
  rewrite E in Hres |- *. simpl in Hres |- *. destruct Hres as (_ & H2 & _).
  replace (q - P + 1) with k by lia. reflexivity.
Qed.

Lemma find_available_port_none_log (P : Z) (w : world) :
  none_free (os w) P ->
  find_available_port P max_attempts_default w
  = (Ok None, World (os w) (log w ++ map (fun i => Probe (P + i)) (range 10))).
Proof.
  intros H. destruct (find_available_port_none P w H) as (probes & E).
  destruct (find_available_port_run P max_attempts_default w)
    as (k & Hk & Hlog & _ & Hres).
  rewrite (surjective_pairing (find_available_port P max_attempts_default w)), Hlog.
  rewrite E in Hres |- *. simpl in Hres |- *. destruct Hres as (-> & _).
  reflexivity.
Qed.

(** X8. Choice 2 scans the ports after [PORT], in order, one probe each,
    without probing [PORT] again: when [q] is the first free port among the
    ten after [PORT], the probes after the answer are exactly those of
    [PORT+1 .. q], then the port is announced and served; when none is free
    the probes are exactly those of [PORT+1 .. PORT+10], and the script
    prints that no port was found and exits with status 1, binding
    nothing. *)
Theorem main_choice_scan (w : world) (line : string) (o1 : OS) :
  probe_fails (os w) PORT ->
  stdin_readline (os w) = (Ok line, o1) ->
  strip line = "2" ->
  (forall q, first_free o1 (PORT + 1) q ->
     main w = serve q (World o1 (log w ++ conflict_prompt ++
                                 map (fun i => Probe (PORT + 1 + i)) (range (q - PORT)) ++
                                 [Print ("Using alternative port: " ++ str q)]))) /\
  (none_free o1 (PORT + 1) ->
     main w = (Raise (SystemExit 1),
               World o1 (log w ++ conflict_prompt ++
                         map (fun i => Probe (PORT + 1 + i)) (range 10) ++
                         [Print "No available ports found. Exiting."]))) /\
  (forall n, ~ In (Probe PORT) (map (fun i => Probe (PORT + 1 + i)) (range n))).
Proof.
  intros Hb Hin Hs.
  rewrite (option_two_scans w line o1 Hb Hin Hs). split; [|split].
  - intros q Hq.
    pose proof (find_available_port_some_log (PORT + 1) q
                  (World o1 (log w ++ conflict_prompt)) Hq) as E.
    replace (q - (PORT + 1) + 1) with (q - PORT) in E by lia.
    assert (Hq0 : q <> 0) by (destruct Hq as (Hr & _); unfold PORT in Hr; lia).
    revert E. generalize (map (fun i => Probe (PORT + 1 + i)) (range (q - PORT))).
    intros probes E.
    unfold bind at 1. unfold use_alternative_port, bind at 1. rewrite E.
    unfold truthy. destruct (Z.eqb_spec q 0) as [Hz|_]; [contradiction|]. simpl.
    unfold print, emit, ret. simpl.
    rewrite <- !app_assoc. reflexivity.
  - intros Hn.
    pose proof (find_available_port_none_log (PORT + 1)
                  (World o1 (log w ++ conflict_prompt)) Hn) as E.
    revert E. generalize (map (fun i => Probe (PORT + 1 + i)) (range 10)).
    intros probes E.
    unfold bind at 1. unfold use_alternative_port, bind at 1. rewrite E.
    unfold print, emit, sys_exit, raise. simpl.
    rewrite <- !app_assoc. reflexivity.
  - intros n Hin'. apply in_map_iff in Hin' as (i & Hi & Hr).
    unfold range in Hr. apply in_map_iff in Hr as (j & <- & _).
    assert (E : PORT + 1 + Z.of_nat j = PORT) by congruence. lia.
Qed.

End ServerFlows.

Lemma main_port_free_witness :
  fst (Server.main (osm := Machine.machine_os) (Machine.boot Machine.idle)) = Ok tt.
Proof.
  rewrite (main_port_free (osm := Machine.machine_os) (Machine.boot Machine.idle) eq_refl).
  reflexivity.
Defined.

Lemma main_choice_exit_witness :
  fst (Server.main (osm := Machine.machine_os) (Machine.boot (Scenes.answering "3")))
  = Raise (SystemExit 0).
Proof.
  rewrite (main_choice_exit (osm := Machine.machine_os)
             (Machine.boot (Scenes.answering "3")) "3"
             (Machine.Mk [(8080, 4242)] true [] [] 5000)
             (conj eq_refl (ex_intro _ OSError (conj eq_refl eq_refl))) eq_refl eq_refl).
  reflexivity.
Defined.

Lemma main_choice_unrecognised_witness :
  fst (Server.main (osm := Machine.machine_os) (Machine.boot (Scenes.answering "7")))
  = Raise (SystemExit 1) /\
  In (Listen 8080)
     (log (snd (Server.main (osm := Machine.machine_os)
                  (Machine.boot (Scenes.answering "7"))))).
Proof.
  rewrite (main_choice_unrecognised (osm := Machine.machine_os)
             (Machine.boot (Scenes.answering "7")) "7"
             (Machine.Mk [(8080, 4242)] true [] [] 5000)
             (conj eq_refl (ex_intro _ OSError (conj eq_refl eq_refl))) eq_refl);
    try discriminate.
  split; [reflexivity|]. vm_compute. auto 20.
Defined.

Lemma main_choice_kill_succeeds_witness :
  fst (Server.main (osm := Machine.machine_os) (Machine.boot (Scenes.answering "1"))) = Ok tt.
Proof.
  rewrite (main_choice_kill_succeeds (osm := Machine.machine_os)
             (Machine.boot (Scenes.answering "1")) "1"
             (Machine.Mk [(8080, 4242)] true [] [] 5000)
             (World (osm := Machine.machine_os)
                (Machine.Mk [] true [] [] 5000)
                (conflict_prompt ++
                 [Run ["lsof"; "-ti"; ":8080"]; Kill 4242;
                  Print "Killed existing server process (PID: 4242)"; Sleep 1]))
             (conj eq_refl (ex_intro _ OSError (conj eq_refl eq_refl))) eq_refl eq_refl eq_refl).
  reflexivity.
Defined.

Lemma main_choice_scan_witness :
  Server.main (osm := Machine.machine_os) (Machine.boot (Scenes.answering "2"))
  = Server.serve 8081
      (World (osm := Machine.machine_os) (Machine.Mk [(8080, 4242)] true [] [] 5000)
             (conflict_prompt ++ [Probe 8081; Print "Using alternative port: 8081"])).
Proof.
  apply (main_choice_scan (osm := Machine.machine_os)
           (Machine.boot (Scenes.answering "2")) "2"
           (Machine.Mk [(8080, 4242)] true [] [] 5000)
           (conj eq_refl (ex_intro _ OSError (conj eq_refl eq_refl))) eq_refl eq_refl).
  split; [simpl; lia|]. split; [reflexivity|].
  intros r Hr. unfold Server.PORT in Hr. lia.
Defined.

(** ** Serving, and the termination attempt *)

Section ServeFacts.
Context {osm : OSModel}.

Import Server.

(** X9. [serve] lets no [Exception] escape. When the listening socket cannot
    be bound it prints the error and the troubleshooting tips and exits with
    status 1, without serving and with nothing to close; when serving is
    ended by the keyboard interrupt it prints the stop message, closes the
    listening socket on leaving the [with] block, and returns normally; when
    serving is ended by an [Exception] the socket is closed as well, then
    the error and the tips are printed and the script exits with status 1. *)
Theorem serve_outcomes (port : Z) (w : world) :
  (forall e, fst (serve port w) = Raise e -> is_Exception e = false) /\
  (forall e, TCPServer (os w) port = Raise e -> is_Exception e = true ->
     serve port w
     = (Raise (SystemExit 1),
        World (os w)
              (log w ++
               [Listen port;
                Print (nl ++ "❌ Error starting server: " ++ exn_str e);
                Print (nl ++ "Troubleshooting tips:");
                Print ("1. Check if port " ++ str port ++ " is in use: lsof -i :" ++ str port);
                Print "2. Kill the process manually: kill -9 <PID>";
                Print "3. Try a different port by editing PORT variable in server.py"]))) /\
  (forall o o', TCPServer (os w) port = Ok o ->
     serve_forever o = (KeyboardInterrupt, o') ->
     serve port w
     = (Ok tt,
        World (server_close o' port)
              (log w ++
               [Listen port;
                Print (nl ++ "✅ Server running at http://localhost:" ++ str port ++ "/");
                Print "Press Ctrl-C to stop the server";
                ServeForever;
                Print (nl ++ nl ++ "🛑 Server stopped.");
                Close port]))) /\
  (forall o o' e, TCPServer (os w) port = Ok o ->
     serve_forever o = (e, o') -> is_Exception e = true ->
     serve port w
     = (Raise (SystemExit 1),
        World (server_close o' port)
              (log w ++
               [Listen port;
                Print (nl ++ "✅ Server running at http://localhost:" ++ str port ++ "/");
                Print "Press Ctrl-C to stop the server";
                ServeForever;
                Close port;
                Print (nl ++ "❌ Error starting server: " ++ exn_str e);
                Print (nl ++ "Troubleshooting tips:");
                Print ("1. Check if port " ++ str port ++ " is in use: lsof -i :" ++ str port);
                Print "2. Kill the process manually: kill -9 <PID>";
                Print "3. Try a different port by editing PORT variable in server.py"]))).
Proof.
  unfold serve, try_except, finally, bind, act, print, emit, sys_exit, raise.
  split; [|split; [|split]].
  - intros e. cbn [os log].
    destruct (TCPServer (os w) port) as [o|x]; cbn [os log fst].
    + destruct (serve_forever o) as [x o']. cbn [os log fst].
      destruct x; cbn [is_Exception fst os log]; intros [= <-]; reflexivity.
    + destruct (is_Exception x) eqn:Ex; cbn [fst]; intros [= <-]; [reflexivity|exact Ex].
  - intros e -> He. cbn [os log]. rewrite He. cbn [os log]. rewrite <- !app_assoc. reflexivity.
  - intros o o' -> Hs. cbn [os log]. rewrite Hs. cbn [os log]. rewrite <- !app_assoc. reflexivity.
  - intros o o' e -> Hs He. cbn [os log]. rewrite Hs. cbn [os log].
    destruct e; try discriminate He; cbn [os log is_Exception];
      rewrite <- !app_assoc; reflexivity.
Qed.

(** X10. The termination attempt lets no [Exception] escape and reports
    success exactly when a signal was delivered: the lookup printed
    something, its output is one integer, and signalling that process did
    not raise. When the lookup prints nothing, nothing is signalled and
    nothing is printed. *)
Theorem kill_existing_server_reports (port : Z) (w : world) :
  (forall e, fst (kill_existing_server port w) = Raise e -> is_Exception e = false) /\
  (fst (kill_existing_server port w) = Ok true <->
   exists out pid o,
     subprocess_run (os w) (lookup_argv port) = Ok out /\
     strip out <> "" /\
     int (strip out) = Ok pid /\
     os_kill (os w) pid = Ok o) /\
  (forall out, subprocess_run (os w) (lookup_argv port) = Ok out ->
     strip out = "" ->
     kill_existing_server port w
     = (Ok false, World (os w) (log w ++ [Run (lookup_argv port)]))).
Proof.
  pose proof (kill_existing_server_run port w) as E. cbv zeta in E.
  split; [|split].
  - intros e. rewrite E.
    destruct (subprocess_run (os w) (lookup_argv port)) as [out|x].
    + destruct (String.eqb (strip out) ""); [discriminate|].
      destruct (int (strip out)) as [pid|x]; [|discriminate].
      destruct (os_kill (os w) pid) as [o|x]; [discriminate|].
      destruct (is_Exception x) eqn:Ex; [discriminate|].
      intros [= <-]. exact Ex.
    + destruct (is_Exception x) eqn:Ex; [discriminate|].
      intros [= <-]. exact Ex.
  - rewrite E. split.
    + destruct (subprocess_run (os w) (lookup_argv port)) as [out|x].
      * destruct (String.eqb_spec (strip out) "") as [|Hne]; [discriminate|].
        destruct (int (strip out)) as [pid|x] eqn:Ei; [|discriminate].
        destruct (os_kill (os w) pid) as [o|x] eqn:Ek.
        -- intros _. exists out, pid, o. auto.
        -- destruct (is_Exception x); discriminate.
      * destruct (is_Exception x); discriminate.
    + intros (out & pid & o & -> & Hne & -> & ->).
      apply String.eqb_neq in Hne. rewrite Hne. reflexivity.
  - intros out Hrun Hs. rewrite E, Hrun, Hs. reflexivity.
Qed.

End ServeFacts.

Lemma serve_outcomes_witness :
  Server.serve (osm := Machine.machine_os) 8080 (Machine.boot Machine.busy)
  = (Raise (SystemExit 1),
     World (osm := Machine.machine_os) Machine.busy
           [Listen 8080;
            Print (nl ++ "❌ Error starting server: error");
            Print (nl ++ "Troubleshooting tips:");
            Print "1. Check if port 8080 is in use: lsof -i :8080";
            Print "2. Kill the process manually: kill -9 <PID>";
            Print "3. Try a different port by editing PORT variable in server.py"]) /\
  Server.serve (osm := Machine.machine_os) 8080 (Machine.boot Machine.idle)
  = (Ok tt,
     World (osm := Machine.machine_os) (Machine.Mk [] true [] [] 5001)
           [Listen 8080;
            Print (nl ++ "✅ Server running at http://localhost:8080/");
            Print "Press Ctrl-C to stop the server";
            ServeForever;
            Print (nl ++ nl ++ "🛑 Server stopped.");
            Close 8080]).
Proof.
  split.
  - apply (proj1 (proj2 (serve_outcomes (osm := Machine.machine_os) 8080
                           (Machine.boot Machine.busy))) OSError);
      reflexivity.
  - apply (proj1 (proj2 (proj2 (serve_outcomes (osm := Machine.machine_os) 8080
                                  (Machine.boot Machine.idle))))
             (Machine.Mk [(8080, 5000)] true [] [] 5001)
             (Machine.Mk [(8080, 5000)] true [] [] 5001));
      reflexivity.
Defined.

Lemma kill_existing_server_reports_witness :
  fst (Server.kill_existing_server (osm := Machine.machine_os) 8080
         (Machine.boot Machine.busy)) = Ok true.
Proof.
  apply (kill_existing_server_reports (osm := Machine.machine_os) 8080
           (Machine.boot Machine.busy)).
  exists ("4242" ++ nl), 4242, Machine.idle.
  repeat split. discriminate.
Defined.

(** ** The commands of the manager *)

Section ManagerFacts.
Context {osm : OSModel}.

Import Manager.

(** Discovery depends on the platform only: what it answers in one world it
    answers in every world with the same platform state. *)
Lemma get_server_pid_at (port : Z) (o : OS) (l : list event)
      (r : result (option Z)) :
  fst (get_server_pid port (World o [])) = r ->
  get_server_pid port (World o l)
  = (r, World o (l ++ [Run (lookup_argv port)])).
Proof.
  intros H.
  rewrite (surjective_pairing (get_server_pid port (World o l))).
  rewrite get_server_pid_world.
  rewrite (get_server_pid_os port (World o l) (World o []) eq_refl), H. reflexivity.
Qed.

Lemma get_server_pid_here (port : Z) (w : world) (r : result (option Z)) :
  fst (get_server_pid port w) = r ->
  get_server_pid port w = (r, World (os w) (log w ++ [Run (lookup_argv port)])).
Proof.
  intros H. rewrite (surjective_pairing (get_server_pid port w)), H.
  now rewrite get_server_pid_world.
Qed.

(** X11. When [start] finds no process on the port it launches
    [server.py] with the running interpreter, waits two seconds and looks
    again: it returns [True] exactly when that second lookup finds a
    process. A failure to launch is not caught. *)
Theorem start_server_launches (w : world) :
  fst (get_server_pid PORT w) = Ok None ->
  (forall o1 found,
     subprocess_Popen (os w) [sys_executable; SERVER_SCRIPT] = Ok o1 ->
     fst (get_server_pid PORT (World (time_sleep o1 2) [])) = Ok found ->
     start_server w
     = (Ok (match found with Some _ => true | None => false end),
        World (time_sleep o1 2)
              (log w ++
               [Run (lookup_argv PORT);
                Print "Starting server on port 8080...";
                Popen [sys_executable; "server.py"];
                Sleep 2;
                Run (lookup_argv PORT);
                Print (match found with
                       | Some _ => "✅ Server started successfully at http://localhost:8080/"
                       | None => "❌ Failed to start server"
                       end)]))) /\
  (forall e,
     subprocess_Popen (os w) [sys_executable; SERVER_SCRIPT] = Raise e ->
     start_server w
     = (Raise e,
        World (os w)
              (log w ++
               [Run (lookup_argv PORT);
                Print "Starting server on port 8080...";
                Popen [sys_executable; "server.py"]]))).
Proof.
  intros H. split.
  - intros o1 found Hp Hf.
    unfold start_server, is_server_running, bind.
    rewrite (get_server_pid_here PORT w _ H).
    unfold print, emit, popen, sleep, act, ret. cbn [os log]. rewrite Hp. cbn [os log].
    rewrite (get_server_pid_at PORT (time_sleep o1 2) _ _ Hf).
    destruct found; cbn [os log]; rewrite <- !app_assoc; reflexivity.
  - intros e Hp.
    unfold start_server, is_server_running, bind.
    rewrite (get_server_pid_here PORT w _ H).
    unfold print, emit, popen, act, ret. cbn [os log]. rewrite Hp.
    rewrite <- !app_assoc. reflexivity.
Qed.

(** X12. When [stop] finds a process (with a non-zero identifier) it sends
    it the termination signal. If the signal is delivered it prints the
    identifier, waits one second and returns [True] without looking whether
    the process has ended; if signalling raises an [Exception] it prints the
    failure and returns [False]. *)
Theorem stop_server_signals (w : world) (pid : Z) :
  fst (get_server_pid PORT w) = Ok (Some pid) ->
  pid <> 0 ->
  (forall o1, os_kill (os w) pid = Ok o1 ->
     stop_server w
     = (Ok true,
        World (time_sleep o1 1)
              (log w ++
               [Run (lookup_argv PORT); Kill pid;
                Print ("✅ Server stopped (PID: " ++ str pid ++ ")");
                Sleep 1]))) /\
  (forall e, os_kill (os w) pid = Raise e -> is_Exception e = true ->
     stop_server w
     = (Ok false,
        World (os w)
              (log w ++
               [Run (lookup_argv PORT); Kill pid;
                Print ("❌ Failed to stop server: " ++ exn_str e)]))).
Proof.
  intros H Hz. apply Z.eqb_neq in Hz.
  split.
  - intros o1 Hk. unfold stop_server, bind.
    rewrite (get_server_pid_here PORT w _ H).
    unfold truthy. rewrite Hz.
    unfold try_except, bind, kill, sleep, act, print, emit, ret. cbn [os log negb].
    rewrite Hk. cbn [os log]. rewrite <- !app_assoc. reflexivity.
  - intros e Hk He. unfold stop_server, bind.
    rewrite (get_server_pid_here PORT w _ H).
    unfold truthy. rewrite Hz.
    unfold try_except, bind, kill, sleep, act, print, emit, ret. cbn [os log negb].
    rewrite Hk, He. cbn [os log]. rewrite <- !app_assoc. reflexivity.
Qed.

(** X13. The commands do not agree on a process identifier 0: [start] takes
    the server to be running and refuses, while [stop] and [status] take it
    not to be running; none of them signals or launches anything. *)
Theorem pid_zero_disagreement (w : world) :
  fst (get_server_pid PORT w) = Ok (Some 0) ->
  start_server w
  = (Ok false,
     World (os w)
           (log w ++ [Run (lookup_argv PORT);
                      Print "❌ Server is already running on port 8080";
                      Print "Use './manage_server.py restart' to restart it"])) /\
  stop_server w
  = (Ok false,
     World (os w) (log w ++ [Run (lookup_argv PORT); Print "❌ No server is running"])) /\
  status_server w
  = (Ok tt,
     World (os w) (log w ++ [Run (lookup_argv PORT); Print "❌ Server is not running"])).
Proof.
  intros H. split; [|split].
  - unfold start_server, is_server_running, bind.
    rewrite (get_server_pid_here PORT w _ H).
    unfold print, emit, ret. cbn [os log]. rewrite <- !app_assoc. reflexivity.
  - unfold stop_server, bind. rewrite (get_server_pid_here PORT w _ H).
    unfold print, emit, ret. cbn. rewrite <- !app_assoc. reflexivity.
  - unfold status_server, bind. rewrite (get_server_pid_here PORT w _ H).
    unfold print, emit. cbn. rewrite <- !app_assoc. reflexivity.
Qed.

(** X14. [status] only looks: when a process (with a non-zero identifier)
    owns the port it prints the identifier and the address of the server,
    and the platform is left as it was. *)
Theorem status_server_running (w : world) (pid : Z) :
  fst (get_server_pid PORT w) = Ok (Some pid) ->
  pid <> 0 ->
  status_server w
  = (Ok tt,
     World (os w)
           (log w ++ [Run (lookup_argv PORT);
                      Print ("✅ Server is running (PID: " ++ str pid ++ ")");
                      Print "   URL: http://localhost:8080/"])).
Proof.
  intros H Hz. apply Z.eqb_neq in Hz.
  unfold status_server, bind. rewrite (get_server_pid_here PORT w _ H).
  unfold truthy. rewrite Hz. unfold print, emit, bind. cbn [os log negb].
  rewrite <- !app_assoc. reflexivity.
Qed.

End ManagerFacts.

Section RestartFacts.
Context {osm : OSModel}.

Import Manager.

Lemma get_server_pid_from (port : Z) (w : world) (r : result (option Z)) :
  fst (get_server_pid port w) = r ->
  fst (get_server_pid port (World (os w) [])) = r.
Proof.
  intros <-. apply (get_server_pid_os port (World (os w) []) w eq_refl).
Qed.

Ltac unfold_commands :=
  unfold restart_server, start_server, stop_server, is_server_running,
    try_except, bind, print, emit, popen, kill, sleep, act, ret.

(** X15. [restart] on a running server whose process ends when signalled:
    the process is signalled, and after the pause of [stop] a new server is
    launched as by [start]; [restart] returns normally whether or not the new
    server is found after the two seconds. *)
Theorem restart_server_replaces (w : world) (pid : Z) (o1 o3 : OS) (found : option Z) :
  fst (get_server_pid PORT w) = Ok (Some pid) ->
  pid <> 0 ->
  os_kill (os w) pid = Ok o1 ->
  fst (get_server_pid PORT (World (time_sleep o1 1) [])) = Ok None ->
  subprocess_Popen (time_sleep o1 1) [sys_executable; SERVER_SCRIPT] = Ok o3 ->
  fst (get_server_pid PORT (World (time_sleep o3 2) [])) = Ok found ->
  restart_server w
  = (Ok tt,
     World (time_sleep o3 2)
           (log w ++
            [Print "Restarting server...";
             Run (lookup_argv PORT);
             Run (lookup_argv PORT); Kill pid;
             Print ("✅ Server stopped (PID: " ++ str pid ++ ")"); Sleep 1;
             Run (lookup_argv PORT);
             Print "Starting server on port 8080...";
             Popen [sys_executable; "server.py"]; Sleep 2;
             Run (lookup_argv PORT);
             Print (match found with
                    | Some _ => "✅ Server started successfully at http://localhost:8080/"
                    | None => "❌ Failed to start server"
                    end)])).
Proof.
  intros H Hz Hk H2 Hp H3. apply Z.eqb_neq in Hz. apply get_server_pid_from in H.
  unfold_commands. cbn [os log].
  rewrite (get_server_pid_at PORT (os w) _ _ H). cbn [os log].
  rewrite (get_server_pid_at PORT (os w) _ _ H). unfold truthy. rewrite Hz. cbn [os log negb].
  rewrite Hk. cbn [os log].
  rewrite (get_server_pid_at PORT (time_sleep o1 1) _ _ H2). cbn [os log].
  rewrite Hp. cbn [os log].
  rewrite (get_server_pid_at PORT (time_sleep o3 2) _ _ H3).
  destruct found; cbn [os log]; rewrite <- !app_assoc; reflexivity.
Qed.

(** X16. [restart] on a running server whose process is still found after
    it was signalled: [start] refuses, so no new server is launched, and
    [restart] still returns normally. *)
Theorem restart_server_survivor (w : world) (pid pid' : Z) (o1 : OS) :
  fst (get_server_pid PORT w) = Ok (Some pid) ->
  pid <> 0 ->
  os_kill (os w) pid = Ok o1 ->
  fst (get_server_pid PORT (World (time_sleep o1 1) [])) = Ok (Some pid') ->
  restart_server w
  = (Ok tt,
     World (time_sleep o1 1)
           (log w ++
            [Print "Restarting server...";
             Run (lookup_argv PORT);
             Run (lookup_argv PORT); Kill pid;
             Print ("✅ Server stopped (PID: " ++ str pid ++ ")"); Sleep 1;
             Run (lookup_argv PORT);
             Print "❌ Server is already running on port 8080";
             Print "Use './manage_server.py restart' to restart it"])).
Proof.
  intros H Hz Hk H2. apply Z.eqb_neq in Hz. apply get_server_pid_from in H.
  unfold_commands. cbn [os log].
  rewrite (get_server_pid_at PORT (os w) _ _ H). cbn [os log].
  rewrite (get_server_pid_at PORT (os w) _ _ H). unfold truthy. rewrite Hz. cbn [os log negb].
  rewrite Hk. cbn [os log].
  rewrite (get_server_pid_at PORT (time_sleep o1 1) _ _ H2). cbn [os log].
  rewrite <- !app_assoc. reflexivity.
Qed.

(** X17. [restart] when no process owns the port sends no signal: after the
    announcement it behaves as [start]. *)
Theorem restart_server_not_running (w : world) (o1 : OS) (found : option Z) :
  fst (get_server_pid PORT w) = Ok None ->
  subprocess_Popen (os w) [sys_executable; SERVER_SCRIPT] = Ok o1 ->
  fst (get_server_pid PORT (World (time_sleep o1 2) [])) = Ok found ->
  restart_server w
  = (Ok tt,
     World (time_sleep o1 2)
           (log w ++
            [Print "Restarting server...";
             Run (lookup_argv PORT);
             Run (lookup_argv PORT);
             Print "Starting server on port 8080...";
             Popen [sys_executable; "server.py"]; Sleep 2;
             Run (lookup_argv PORT);
             Print (match found with
                    | Some _ => "✅ Server started successfully at http://localhost:8080/"
                    | None => "❌ Failed to start server"
                    end)])).
Proof.
  intros H Hp H3. apply get_server_pid_from in H.
  unfold_commands. cbn [os log].
  rewrite (get_server_pid_at PORT (os w) _ _ H). cbn [os log].
  rewrite (get_server_pid_at PORT (os w) _ _ H). cbn [os log].
  rewrite Hp. cbn [os log].
  rewrite (get_server_pid_at PORT (time_sleep o1 2) _ _ H3).
  destruct found; cbn [os log]; rewrite <- !app_assoc; reflexivity.
Qed.

(** X18. Without a command argument [main] prints the usage line and exits
    with status 1, before changing directory or looking anything up. *)
Theorem main_usage (argv : list string) (w : world) :
  (List.length argv < 2)%nat ->
  main argv w
  = (Raise (SystemExit 1),
     World (os w)
           (log w ++ [Print "Usage: ./manage_server.py [start|stop|restart|status]"])).
Proof.
  intros H. destruct argv as [|prog [|arg rest]]; simpl in H; try lia; reflexivity.
Qed.

(** X19. The boolean an action returns is dropped: whenever [start_server] or
    [stop_server] returns, [True] or [False], [main] returns normally (exit
    status 0) in the world the action left. *)
Theorem main_ignores_action_result
        (prog s : string) (rest : list string) (w w' : world) (b : bool) :
  (lower s = "start" ->
   start_server (World (os w) (log w ++ [Chdir])) = (Ok b, w') ->
   main (prog :: s :: rest) w = (Ok tt, w')) /\
  (lower s = "stop" ->
   stop_server (World (os w) (log w ++ [Chdir])) = (Ok b, w') ->
   main (prog :: s :: rest) w = (Ok tt, w')).
Proof.
  split; intros Hs Ha; unfold main; rewrite Hs; unfold dispatch; cbn [String.eqb Ascii.eqb Bool.eqb];
    unfold bind at 1; unfold chdir_script_directory, emit;
    unfold bind; rewrite Ha; reflexivity.
Qed.

End RestartFacts.

Lemma start_server_launches_witness :
  fst (Manager.start_server (osm := Machine.machine_os) (Machine.boot Machine.idle)) = Ok true.
Proof.
  rewrite (proj1 (start_server_launches (osm := Machine.machine_os)
                    (Machine.boot Machine.idle) eq_refl)
                 (Machine.Mk [(8080, 5000)] true [] [] 5001) (Some 5000) eq_refl eq_refl).
  reflexivity.
Defined.

Lemma stop_server_signals_witness :
  Manager.stop_server (osm := Machine.machine_os) (Machine.boot Machine.busy)
  = (Ok true,
     World (osm := Machine.machine_os) Machine.idle
           [Run (lookup_argv 8080); Kill 4242;
            Print "✅ Server stopped (PID: 4242)"; Sleep 1]).
Proof.
  apply (proj1 (stop_server_signals (osm := Machine.machine_os)
                  (Machine.boot Machine.busy) 4242 eq_refl ltac:(discriminate))
               Machine.idle eq_refl).
Defined.

Lemma pid_zero_disagreement_witness :
  fst (Manager.start_server (osm := Machine.machine_os) (Machine.boot Scenes.zero_owner))
  = Ok false /\
  In (Print "❌ No server is running")
     (log (snd (Manager.stop_server (osm := Machine.machine_os)
                  (Machine.boot Scenes.zero_owner)))).
Proof.
  destruct (pid_zero_disagreement (osm := Machine.machine_os)
              (Machine.boot Scenes.zero_owner) eq_refl) as (E1 & E2 & _).
  rewrite E1, E2. split; [reflexivity|]. simpl. auto.
Defined.

Lemma status_server_running_witness :
  Manager.status_server (osm := Machine.machine_os) (Machine.boot Machine.busy)
  = (Ok tt,
     World (osm := Machine.machine_os) Machine.busy
           [Run (lookup_argv 8080);
            Print "✅ Server is running (PID: 4242)";
            Print "   URL: http://localhost:8080/"]).
Proof.
  apply (status_server_running (osm := Machine.machine_os)
           (Machine.boot Machine.busy) 4242 eq_refl).
  discriminate.
Defined.

Lemma restart_server_replaces_witness :
  fst (Manager.restart_server (osm := Machine.machine_os) (Machine.boot Machine.busy)) = Ok tt /\
  os (snd (Manager.restart_server (osm := Machine.machine_os) (Machine.boot Machine.busy)))
  = Machine.Mk [(8080, 5000)] true [] [] 5001.
Proof.
  rewrite (restart_server_replaces (osm := Machine.machine_os)
             (Machine.boot Machine.busy) 4242 Machine.idle
             (Machine.Mk [(8080, 5000)] true [] [] 5001) (Some 5000)
             eq_refl ltac:(discriminate) eq_refl eq_refl eq_refl eq_refl).
  split; reflexivity.
Defined.

Lemma restart_server_survivor_witness :
  Manager.restart_server (osm := Machine.machine_os) (Machine.boot Scenes.survivor)
  = (Ok tt,
     World (osm := Machine.machine_os) Scenes.survivor
           [Print "Restarting server...";
            Run (lookup_argv 8080);
            Run (lookup_argv 8080); Kill 4242;
            Print "✅ Server stopped (PID: 4242)"; Sleep 1;
            Run (lookup_argv 8080);
            Print "❌ Server is already running on port 8080";
            Print "Use './manage_server.py restart' to restart it"]).
Proof.
  apply (restart_server_survivor (osm := Machine.machine_os)
           (Machine.boot Scenes.survivor) 4242 4242 Scenes.survivor
           eq_refl ltac:(discriminate) eq_refl eq_refl).
Defined.

Lemma restart_server_not_running_witness :
  Manager.restart_server (osm := Machine.machine_os) (Machine.boot Machine.idle)
  = (Ok tt,
     World (osm := Machine.machine_os) (Machine.Mk [(8080, 5000)] true [] [] 5001)
           [Print "Restarting server...";
            Run (lookup_argv 8080);
            Run (lookup_argv 8080);
            Print "Starting server on port 8080...";
            Popen ["/usr/bin/python3"; "server.py"]; Sleep 2;
            Run (lookup_argv 8080);
            Print "✅ Server started successfully at http://localhost:8080/"]).
Proof.
  apply (restart_server_not_running (osm := Machine.machine_os)
           (Machine.boot Machine.idle)
           (Machine.Mk [(8080, 5000)] true [] [] 5001) (Some 5000)
           eq_refl eq_refl eq_refl).
Defined.

Lemma main_usage_witness :
  Manager.main (osm := Machine.machine_os) ["manage_server.py"] (Machine.boot Machine.busy)
  = (Raise (SystemExit 1),
     World (osm := Machine.machine_os) Machine.busy
           [Print "Usage: ./manage_server.py [start|stop|restart|status]"]).
Proof.
  apply (main_usage (osm := Machine.machine_os) ["manage_server.py"]
           (Machine.boot Machine.busy)).
  simpl. lia.
Defined.

Lemma main_ignores_action_result_witness :
  fst (Manager.main (osm := Machine.machine_os) ["manage_server.py"; "START"]
         (Machine.boot Machine.busy)) = Ok tt.
Proof.
  rewrite (proj1 (main_ignores_action_result (osm := Machine.machine_os)
                    "manage_server.py" "START" []
                    (Machine.boot Machine.busy)
                    (World (osm := Machine.machine_os) Machine.busy
                       [Chdir; Run (lookup_argv 8080);
                        Print "❌ Server is already running on port 8080";
                        Print "Use './manage_server.py restart' to restart it"])
                    false)
                 eq_refl eq_refl).
  reflexivity.
Defined.

(** ** The handler and the library's own response *)

Section HandlerFacts.
Context {lib : Server.HttpLib}.
Local Open Scope list_scope.

Import Server.

(** X20. For a request that reaches a reply with its path set and a
    version other than HTTP/0.9, the handler changes neither the status nor
    the body the library chose and drops none of its header lines; for a
    script path the JavaScript content type is added as one more line, the
    last one, beside whatever content type the library sent. *)
Theorem handler_keeps_library_response (raw target version : string) (r : reply) :
  replies raw target version r ->
  version <> "HTTP/0.9"%string ->
  let self := snd (handle_one_request raw) in
  sent_status self = Some (fst (fst r)) /\
  body self = snd r /\
  incl (snd (fst r)) (sent_headers self) /\
  (endswith target ".js" = true ->
   last (sent_headers self) ("", "")%string = ("Content-Type", "application/javascript")).
Proof.
  intros H Hne. cbv zeta.
  assert (Hv : String.eqb version "HTTP/0.9" = false) by now apply String.eqb_neq.
  rewrite (response_eq raw target version r H Hv). cbn [snd body].
  split; [reflexivity|]. split; [reflexivity|].
  rewrite sent_headers_reply. split.
  - intros h Hh. right. right. apply in_or_app. left. exact Hh.
  - intros E. rewrite E.
    assert (Hl : forall (l : list header) (x y a b c d : header),
               last (x :: y :: l ++ [a; b; c; d]) ("", "")%string = d).
    { intros l x y a b c d.
      change (x :: y :: l ++ [a; b; c; d]) with ((x :: y :: l) ++ [a; b; c] ++ [d]).
      rewrite app_assoc. apply last_last. }
    unfold cors_lines, javascript_line. cbn [flat_map app]. apply Hl.
Qed.

(** X21. Among the requests that reach a reply with their path set and a
    version other than HTTP/0.9, the handler adds the JavaScript content
    type exactly to those whose path, as received (query string included,
    letter case kept), is some text followed by [.js]. *)
Theorem content_type_override_iff (raw target version : string) (r : reply) :
  replies raw target version r ->
  version <> "HTTP/0.9"%string ->
  ((exists q, target = (q ++ ".js")%string) <->
   wfile (snd (handle_one_request raw))
   = library_head r ++ cors_lines ++ [javascript_line]).
Proof.
  intros H Hne.
  assert (Hv : String.eqb version "HTTP/0.9" = false) by now apply String.eqb_neq.
  rewrite (response_eq raw target version r H Hv). cbn [snd wfile]. split.
  - intros (q & ->). now rewrite endswith_app.
  - intros E. destruct (endswith target ".js") eqn:Es.
    + now apply endswith_inv.
    + apply app_inv_head in E. apply app_inv_head in E. discriminate E.
Qed.

End HandlerFacts.

Lemma handler_keeps_library_response_witness :
  last (sent_headers
          (snd (Server.handle_one_request (lib := Machine.http_lib) "GET /app.js HTTP/1.1")))
       ("", "")
  = ("Content-Type", "application/javascript") /\
  In ("Content-type", "text/html")
     (sent_headers
        (snd (Server.handle_one_request (lib := Machine.http_lib) "GET /app.js HTTP/1.1"))).
Proof.
  assert (H : replies (lib := Machine.http_lib)
                "GET /app.js HTTP/1.1" "/app.js" "HTTP/1.1"
                (200, [("Content-type", "text/html")], Machine.page)).
  { right. left. exists "GET". split; [reflexivity|]. split; reflexivity. }
  assert (Hne : "HTTP/1.1"%string <> "HTTP/0.9"%string) by discriminate.
  destruct (handler_keeps_library_response (lib := Machine.http_lib) _ _ _ _ H Hne)
    as (_ & _ & Hincl & Hlast).
  split; [exact (Hlast eq_refl)|].
  apply Hincl. left. reflexivity.
Defined.

Lemma content_type_override_iff_witness :
  Server.wfile
    (snd (Server.handle_one_request (lib := Machine.http_lib) "GET /app.js?v=1 HTTP/1.1"))
  <> (library_head (lib := Machine.http_lib)
        (200, [("Content-type", "text/html")], Machine.page)
      ++ cors_lines ++ [javascript_line])%list.
Proof.
  assert (H : replies (lib := Machine.http_lib)
                "GET /app.js?v=1 HTTP/1.1" "/app.js?v=1" "HTTP/1.1"
                (200, [("Content-type", "text/html")], Machine.page)).
  { right. left. exists "GET". split; [reflexivity|]. split; reflexivity. }
  assert (Hne : "HTTP/1.1"%string <> "HTTP/0.9"%string) by discriminate.
  intros E.
  destruct (content_type_override_iff (lib := Machine.http_lib) _ _ _ _ H Hne)
    as (_ & Hback).
  destruct (Hback E) as (q & Eq).
  assert (Hs : endswith "/app.js?v=1" ".js" = true) by (rewrite Eq; apply endswith_app).
  discriminate Hs.
Defined.

(** ** The main block of the favicon generator *)

Section FaviconRuns.

Import Favicon.

(** X22. With the library installed, an exception of the rendering that is
    not an [ImportError] is not caught: the script ends with it, and neither
    the success lines nor the placeholder message are printed. *)
Theorem render_error_propagates (x : exn) (s : state) :
  is_ImportError x = false ->
  fst (script (Env true (Raise x)) s) = Raise x /\
  stdout (snd (script (Env true (Raise x)) s)) = stdout s.
Proof.
  intros H. unfold script, main_block, fseq, import_PIL, create_favicon. simpl.
  rewrite H. split; reflexivity.
Qed.

(** X23. With the library installed, an [ImportError] raised while rendering
    is caught by the main block: the script ends normally, and the last file
    it writes is [favicon.ico] with the 1014 bytes of the placeholder,
    announced by the three lines of the fallback. *)
Theorem render_import_error_placeholder (x : exn) (s : state) :
  is_ImportError x = true ->
  let r := script (Env true (Raise x)) s in
  fst r = Ok tt /\
  last (files (snd r)) (EmptyString, [])
  = ("favicon.ico", (placeholder_header ++ placeholder_padding)%list) /\
  List.length (snd (last (files (snd r)) (EmptyString, []))) = 1014%nat /\
  stdout (snd r)
  = (stdout s ++
     ["Pillow library not installed. Creating a simple text file as placeholder.";
      "Created placeholder favicon.ico";
      "To create a proper favicon, install Pillow: pip install Pillow"])%list.
Proof.
  intros H. cbv zeta.
  assert (E : script (Env true (Raise x)) s = fallback s).
  { unfold script, main_block, fseq, import_PIL, create_favicon. simpl. now rewrite H. }
  rewrite E, fallback_writes_placeholder. cbn [fst snd files stdout].
  rewrite last_last. repeat split.
Qed.

End FaviconRuns.

Lemma render_error_propagates_witness :
  fst (Favicon.script (Favicon.Env true (Raise OSError)) Favicon.initial) = Raise OSError.
Proof.
  apply (render_error_propagates OSError Favicon.initial). reflexivity.
Defined.

Lemma render_import_error_placeholder_witness :
  fst (Favicon.script (Favicon.Env true (Raise ImportError)) Favicon.initial) = Ok tt.
Proof.
  apply (render_import_error_placeholder ImportError Favicon.initial). reflexivity.
Defined.
